(** * poly-trader: the signed [/trade] webhook, embedded in Rocq

    The repository holds two builds of one Cloudflare worker,
    [src/worker.js] (Node-compat build of the exchange client) and
    [src/unnamed/part_000] (browser build).  Both contain the helpers
    [clamp01], [timingSafeEqual], [verifyHmac], [resolveTokenId], the
    pipeline [handleTrade] and the router [fetch].

    Conventions of the embedding.
    - A JavaScript string is a [string]: a sequence of code units below
      256; [charCodeAt] is the code of the character.  [TextEncoder] is
      UTF-8 on those codes.
    - A JavaScript number is a member of a [JsNumber] structure.  Two
      structures are given: IEEE binary64 ([float], what the runtime
      computes with) and exact extended rationals ([xnum]).
    - Values read from JSON are [jsval]s; [VUndef] is [undefined].
    - Code that awaits external collaborators runs in the monad [M]:
      a log of the external calls made, and a value or a thrown value.
      What is thrown is any value: an Error, [null], [undefined] or
      another value; the [catch] blocks read its [message].
    - HMAC-SHA256 ([crypto.subtle]) is written out after FIPS 180-4 and
      RFC 2104, and checked on published vectors.
    - The rest of ECMAScript that the code calls ([JSON.parse], the
      conversions between strings and numbers, [encodeURIComponent]) is a
      [runtime], and the metadata service, the wallet and the exchange
      client are a [world]: both are parameters of the pipeline. *)

From Stdlib Require Import ZArith List String Ascii Bool Lia.
From Stdlib Require Import QArith Qcanon Floats DecimalString.
Import ListNotations.

Set Warnings "-inexact-float,-register-all".

Local Open Scope string_scope.
Local Open Scope list_scope.
Local Open Scope Z_scope.

(** ** Strings *)

Definition charCode (c : ascii) : Z := Z.of_nat (nat_of_ascii c).

(** [s.charCodeAt(i)]; out of range JavaScript yields NaN, which the
    bitwise operators read as 0. *)
Definition charCodeAt (s : string) (i : nat) : Z :=
  match String.get i s with
  | Some c => charCode c
  | None => 0
  end.

Definition ascii_of_code (z : Z) : ascii := ascii_of_nat (Z.to_nat z).

(** [c.toLowerCase()] on one code unit below 256: A-Z, and the Latin-1
    capitals U+00C0..U+00DE except the multiplication sign U+00D7. *)
Definition lower_char (c : ascii) : ascii :=
  let n := charCode c in
  if ((65 <=? n) && (n <=? 90)) || ((192 <=? n) && (n <=? 222) && negb (n =? 215))
  then ascii_of_code (n + 32)
  else c.

Fixpoint toLowerCase (s : string) : string :=
  match s with
  | EmptyString => EmptyString
  | String c r => String (lower_char c) (toLowerCase r)
  end.

(** [s.startsWith(p)] *)
Definition startsWith (s p : string) : bool := String.prefix p s.

(** [s.slice(n)] for a non-negative [n] *)
Fixpoint slice (n : nat) (s : string) : string :=
  match n, s with
  | O, _ => s
  | S n', String _ r => slice n' r
  | S _, EmptyString => EmptyString
  end.

(** White space and line terminators that [trim] strips, below 256:
    TAB, LF, VT, FF, CR, SP, NBSP. *)
Definition is_space (c : ascii) : bool :=
  let n := charCode c in
  ((9 <=? n) && (n <=? 13)) || (n =? 32) || (n =? 160).

Fixpoint trimStart (s : string) : string :=
  match s with
  | String c r => if is_space c then trimStart r else s
  | EmptyString => EmptyString
  end.

(** [trimEnd]: a character is kept when it is not a space or when
    something is kept after it. *)
Fixpoint trimEnd (s : string) : string :=
  match s with
  | EmptyString => EmptyString
  | String c r =>
      match trimEnd r with
      | EmptyString => if is_space c then EmptyString else String c EmptyString
      | r' => String c r'
      end
  end.

Definition trim (s : string) : string := trimEnd (trimStart s).





(** Decimal rendering of an integer, as a template literal does. *)
Definition decimal (z : Z) : string := NilZero.string_of_int (Z.to_int z).


(** ** SHA-256 and HMAC (the [crypto.subtle] primitives) *)

Module Sha256.

Definition w32 (x : Z) : Z := x mod 2 ^ 32.
Definition add32 (x y : Z) : Z := w32 (x + y).
Definition rotr (n x : Z) : Z := Z.lor (Z.shiftr x n) (w32 (Z.shiftl x (32 - n))).
Definition not32 (x : Z) : Z := Z.lxor x 0xffffffff.

Definition Ch (x y z : Z) : Z := Z.lxor (Z.land x y) (Z.land (not32 x) z).
Definition Maj (x y z : Z) : Z :=
  Z.lxor (Z.lxor (Z.land x y) (Z.land x z)) (Z.land y z).
Definition Sigma0 (x : Z) : Z := Z.lxor (Z.lxor (rotr 2 x) (rotr 13 x)) (rotr 22 x).
Definition Sigma1 (x : Z) : Z := Z.lxor (Z.lxor (rotr 6 x) (rotr 11 x)) (rotr 25 x).
Definition sigma0 (x : Z) : Z := Z.lxor (Z.lxor (rotr 7 x) (rotr 18 x)) (Z.shiftr x 3).
Definition sigma1 (x : Z) : Z := Z.lxor (Z.lxor (rotr 17 x) (rotr 19 x)) (Z.shiftr x 10).

(** The first 64 primes. *)
Definition is_prime (n : Z) : bool :=
  forallb (fun d => negb (n mod Z.of_nat d =? 0)) (seq 2 (Z.to_nat n - 2)).

Definition primes : list Z :=
  Eval vm_compute in filter is_prime (map Z.of_nat (seq 2 310)).

(** The integer cube root of [n], found bit by bit from bit [k - 1] down. *)
Fixpoint cube_root_bits (k : nat) (n r : Z) : Z :=
  match k with
  | O => r
  | S k' =>
      let c := r + 2 ^ Z.of_nat k' in
      cube_root_bits k' n (if c * c * c <=? n then c else r)
  end.

(** The round constants: the first 32 bits of the fractional parts of the
    cube roots of the first 64 primes. *)
Definition K : list Z :=
  Eval vm_compute in map (fun p => w32 (cube_root_bits 40 (p * 2 ^ 96) 0)) primes.

(** The initial hash value: the same of the square roots of the first 8. *)
Definition H0 : list Z :=
  Eval vm_compute in map (fun p => w32 (Z.sqrt (p * 2 ^ 64))) (firstn 8 primes).

(** Big-endian bytes of a word, [n] of them. *)
Fixpoint be_bytes (n : nat) (x : Z) : list Z :=
  match n with
  | O => []
  | S n' => Z.land (Z.shiftr x (8 * Z.of_nat n')) 255 :: be_bytes n' x
  end.

Definition be_word (bs : list Z) : Z :=
  fold_left (fun acc b => acc * 256 + b) bs 0.

(** Padding: 0x80, zeros up to 56 mod 64, then the bit length on 8 bytes. *)
Definition pad (msg : list Z) : list Z :=
  let len := Z.of_nat (List.length msg) in
  let zeros := Z.to_nat ((55 - len) mod 64) in
  msg ++ [128] ++ repeat 0 zeros ++ be_bytes 8 (8 * len).

(** Cut a list into [n] pieces of [k] items. *)
Fixpoint chunks {A : Type} (k n : nat) (l : list A) : list (list A) :=
  match n with
  | O => []
  | S n' => firstn k l :: chunks k n' (skipn k l)
  end.

(** Message schedule: the 16 block words extended to 64. *)
Fixpoint schedule (n : nat) (ws : list Z) : list Z :=
  match n with
  | O => ws
  | S n' =>
      let t := List.length ws in
      let at_ (k : nat) := nth (t - k) ws 0 in
      schedule n'
        (ws ++ [add32 (add32 (sigma1 (at_ 2%nat)) (at_ 7%nat))
                      (add32 (sigma0 (at_ 15%nat)) (at_ 16%nat))])
  end.

Record regs := Regs { ra : Z; rb : Z; rc : Z; rd : Z; re : Z; rf : Z; rg : Z; rh : Z }.

Definition round (s : regs) (kw : Z * Z) : regs :=
  let (k, w) := kw in
  let t1 := add32 (add32 (add32 (rh s) (Sigma1 (re s))) (Ch (re s) (rf s) (rg s)))
                  (add32 k w) in
  let t2 := add32 (Sigma0 (ra s)) (Maj (ra s) (rb s) (rc s)) in
  Regs (add32 t1 t2) (ra s) (rb s) (rc s) (add32 (rd s) t1) (re s) (rf s) (rg s).

Definition regs_of (h : list Z) : regs :=
  Regs (nth 0 h 0) (nth 1 h 0) (nth 2 h 0) (nth 3 h 0)
       (nth 4 h 0) (nth 5 h 0) (nth 6 h 0) (nth 7 h 0).

Definition list_of (s : regs) : list Z :=
  [ra s; rb s; rc s; rd s; re s; rf s; rg s; rh s].

Definition compress (h : list Z) (block : list Z) : list Z :=
  let ws := schedule 48 (map be_word (chunks 4 16 block)) in
  let s := fold_left round (combine K ws) (regs_of h) in
  map (fun p => add32 (fst p) (snd p)) (combine h (list_of s)).

Definition digest (msg : list Z) : list Z :=
  let padded := pad msg in
  let blocks := chunks 64 (List.length padded / 64) padded in
  flat_map (be_bytes 4) (fold_left compress blocks H0).

(** RFC 2104 with a 64-byte block. *)
Definition hmac (key msg : list Z) : list Z :=
  let k0 := if (64 <? Z.of_nat (List.length key)) then digest key else key in
  let k := k0 ++ repeat 0 (64 - List.length k0) in
  let ipad := map (fun b => Z.lxor b 0x36) k in
  let opad := map (fun b => Z.lxor b 0x5c) k in
  digest (opad ++ digest (ipad ++ msg)).

End Sha256.

(** [new TextEncoder().encode(s)]: UTF-8 of code units below 256. *)
Definition utf8_char (c : ascii) : list Z :=
  let n := charCode c in
  if n <? 128 then [n]
  else [Z.lor 192 (Z.shiftr n 6); Z.lor 128 (Z.land n 63)].

Fixpoint TextEncoder_encode (s : string) : list Z :=
  match s with
  | EmptyString => []
  | String c r => utf8_char c ++ TextEncoder_encode r
  end.

(** ** The helpers of both files *)

Definition hex_digit (d : Z) : ascii :=
  match String.get (Z.to_nat d) "0123456789abcdef" with
  | Some c => c
  | None => "0"%char
  end.

(** [b.toString(16)] for a byte. *)
Definition toString16 (b : Z) : string :=
  if b <? 16 then String (hex_digit b) EmptyString
  else String (hex_digit (b / 16)) (String (hex_digit (b mod 16)) EmptyString).

(** [s.padStart(2, "0")] *)
Definition padStart2 (s : string) : string :=
  match s with
  | EmptyString => "00"
  | String c EmptyString => String "0"%char s
  | _ => s
  end.

(** [bytes.map(b => b.toString(16).padStart(2, "0")).join("")] *)
Definition hex_of_bytes (bs : list Z) : string :=
  fold_right (fun b acc => (padStart2 (toString16 b) ++ acc)%string) EmptyString bs.

(** The XOR of the characters of [a] and [b] at position [k]. *)
Definition xor_at (a b : string) (k : nat) : Z :=
  Z.lxor (charCodeAt a k) (charCodeAt b k).

(** The body of the [for] loop of [timingSafeEqual], run [n] times from
    index [i].  The state is the accumulator [x] and, as instrumentation,
    the list of positions whose characters were read. *)
Fixpoint tse_loop (a b : string) (n i : nat) (st : Z * list nat) : Z * list nat :=
  match n with
  | O => st
  | S n' =>
      tse_loop a b n' (S i)
        (Z.lor (fst st) (Z.lxor (charCodeAt a i) (charCodeAt b i)), snd st ++ [i])
  end.

(** [timingSafeEqual] with the positions it visited. *)
Definition timingSafeEqual_run (a b : string) : bool * list nat :=
  if negb (String.length a =? String.length b)%nat then (false, [])
  else
    let st := tse_loop a b (String.length a) 0 (0, []) in
    (fst st =? 0, snd st).

Definition timingSafeEqual (a b : string) : bool := fst (timingSafeEqual_run a b).

(** The lowercase hex HMAC-SHA256 of [message] under [secret]. *)
Definition hmac_hex (secret message : string) : string :=
  hex_of_bytes (Sha256.hmac (TextEncoder_encode secret) (TextEncoder_encode message)).

(** [verifyHmac(secret, message, hexSig)]; [secret] is [None] when the
    environment variable is not set. *)
Definition verifyHmac (secret : option string) (message hexSig : string) : bool :=
  match secret with
  | None => false
  | Some EmptyString => false
  | Some s => timingSafeEqual (hmac_hex s message) (toLowerCase hexSig)
  end.

(** ** Numbers *)

(** What the pipeline needs of JavaScript numbers. *)
Class JsNumber (num : Type) := {
  num_nan : num;
  num_of_Z : Z -> num;                 (* an integer literal *)
  num_0_01 : num;                      (* the literal [0.01] *)
  num_add : num -> num -> num;
  num_mul : num -> num -> num;
  num_div : num -> num -> num;
  num_isFinite : num -> bool;          (* [Number.isFinite] *)
  num_max : num -> num -> num;         (* [Math.max] *)
  num_min : num -> num -> num;         (* [Math.min] *)
  num_truthy : num -> bool;            (* ToBoolean: false on 0, -0 and NaN *)
  num_zero_falsy : num_truthy (num_of_Z 0) = false;
  num_0_01_truthy : num_truthy num_0_01 = true
}.

(** *** IEEE binary64 *)

Module Binary64.
Local Open Scope float_scope.

Definition of_Z (z : Z) : float :=
  if (z <? 0)%Z then - of_uint63 (Uint63.of_Z (- z)) else of_uint63 (Uint63.of_Z z).

(** [Math.max] and [Math.min]: NaN if an argument is NaN, and +0 above -0. *)
Definition max (a b : float) : float :=
  if is_nan a || is_nan b then nan
  else if a <? b then b
  else if b <? a then a
  else if get_sign a then b else a.

Definition min (a b : float) : float :=
  if is_nan a || is_nan b then nan
  else if a <? b then a
  else if b <? a then b
  else if get_sign a then a else b.

Definition truthy (x : float) : bool := negb (is_nan x || is_zero x).

(** The comparison of the IEEE specification, on the numbers. *)
Definition cmp (a b : float) : option comparison := SFcompare (Prim2SF a) (Prim2SF b).

End Binary64.

#[export] Instance float_JsNumber : JsNumber float := {|
  num_nan := PrimFloat.nan;
  num_of_Z := Binary64.of_Z;
  num_0_01 := 0.01%float;
  num_add := PrimFloat.add;
  num_mul := PrimFloat.mul;
  num_div := PrimFloat.div;
  num_isFinite := PrimFloat.is_finite;
  num_max := Binary64.max;
  num_min := Binary64.min;
  num_truthy := Binary64.truthy;
  num_zero_falsy := eq_refl;
  num_0_01_truthy := eq_refl
|}.

(** *** Exact arithmetic: rationals with NaN and the two infinities *)

Inductive xnum : Type :=
| XNaN
| XInf (negative : bool)
| XFin (q : Qc).

Module Exact.

Definition qneg (q : Qc) : bool := (Qnum (this q) <? 0)%Z.
Definition qzero (q : Qc) : bool := (Qnum (this q) =? 0)%Z.

Definition add (a b : xnum) : xnum :=
  match a, b with
  | XNaN, _ | _, XNaN => XNaN
  | XInf s, XInf t => if Bool.eqb s t then XInf s else XNaN
  | XInf s, XFin _ | XFin _, XInf s => XInf s
  | XFin p, XFin q => XFin (p + q)%Qc
  end.

Definition mul (a b : xnum) : xnum :=
  match a, b with
  | XNaN, _ | _, XNaN => XNaN
  | XInf s, XInf t => XInf (xorb s t)
  | XInf s, XFin q | XFin q, XInf s => if qzero q then XNaN else XInf (xorb s (qneg q))
  | XFin p, XFin q => XFin (p * q)%Qc
  end.

(** There is one zero here, and it counts as positive. *)
Definition div (a b : xnum) : xnum :=
  match a, b with
  | XNaN, _ | _, XNaN => XNaN
  | XInf _, XInf _ => XNaN
  | XInf s, XFin q => XInf (xorb s (qneg q))
  | XFin _, XInf _ => XFin 0%Qc
  | XFin p, XFin q =>
      if qzero q then (if qzero p then XNaN else XInf (qneg p))
      else XFin (p / q)%Qc
  end.

Definition ltb (a b : xnum) : bool :=
  match a, b with
  | XNaN, _ | _, XNaN => false
  | XInf s, XInf t => s && negb t
  | XInf s, XFin _ => s
  | XFin _, XInf t => negb t
  | XFin p, XFin q => match (p ?= q)%Qc with Lt => true | _ => false end
  end.

Definition max (a b : xnum) : xnum :=
  match a, b with
  | XNaN, _ | _, XNaN => XNaN
  | _, _ => if ltb a b then b else a
  end.

Definition min (a b : xnum) : xnum :=
  match a, b with
  | XNaN, _ | _, XNaN => XNaN
  | _, _ => if ltb b a then b else a
  end.

Definition isFinite (a : xnum) : bool :=
  match a with XFin _ => true | _ => false end.

Definition truthy (a : xnum) : bool :=
  match a with
  | XNaN => false
  | XInf _ => true
  | XFin q => negb (qzero q)
  end.

Definition of_Z (z : Z) : xnum := XFin (Q2Qc (inject_Z z)).

(** The decimal [n / d]. *)
Definition frac (n : Z) (d : positive) : xnum := XFin (Q2Qc (n # d)).

End Exact.

#[export] Instance xnum_JsNumber : JsNumber xnum := {|
  num_nan := XNaN;
  num_of_Z := Exact.of_Z;
  num_0_01 := Exact.frac 1 100;
  num_add := Exact.add;
  num_mul := Exact.mul;
  num_div := Exact.div;
  num_isFinite := Exact.isFinite;
  num_max := Exact.max;
  num_min := Exact.min;
  num_truthy := Exact.truthy;
  num_zero_falsy := eq_refl;
  num_0_01_truthy := eq_refl
|}.

(** ** Exceptions and the call log *)

(** An Error object (TypeError, SyntaxError, the errors of a library):
    an object whose [message] is a string. *)
Record exn := Exn { message : string }.

(** What a [throw] or a rejected promise carries is any value. The [catch]
    handlers of the code read [e.message] and nothing else, so a thrown
    value is kept as what that read meets: an object whose [message] is a
    string (every Error); [null] or [undefined], on which the read itself
    is a TypeError; or another value without that property (a thrown
    string or number, a plain object), on which it gives [undefined].
    Objects whose [message] is neither a string nor [undefined] are left
    out. *)
Inductive thrown_value : Type :=
| Error (e : exn)
| ThrownNull
| ThrownUndefined
| ThrownOther.

Coercion Error : exn >-> thrown_value.

Inductive res (A : Type) : Type :=
| Ok (a : A)
| Throw (e : thrown_value).
Arguments Ok {A} a.
Arguments Throw {A} e.

(** [e.message] in a [catch (e)]: [None] is [undefined] (V8's wording of
    the TypeError). *)
Definition message_of (e : thrown_value) : res (option string) :=
  match e with
  | Error x => Ok (Some (message x))
  | ThrownOther => Ok None
  | ThrownNull => Throw (Exn "Cannot read properties of null (reading 'message')")
  | ThrownUndefined =>
      Throw (Exn "Cannot read properties of undefined (reading 'message')")
  end.

(** [${m}] in a template literal, for [m] a string or [undefined]. *)
Definition interpolate (m : option string) : string :=
  match m with
  | Some s => s
  | None => "undefined"
  end.

Section Pipeline.

Context {num : Type} {N : JsNumber num}.

(** ** Values *)

(** What [JSON.parse] and [r.json()] yield, and [undefined]. The fields of
    an object are looked up from the left. *)
Inductive jsval : Type :=
| VUndef
| VNull
| VBool (b : bool)
| VNum (n : num)
| VStr (s : string)
| VArr (items : list jsval)
| VObj (fields : list (string * jsval)).

(** The parts of ECMAScript that the code calls and that are not written
    out here. *)
Record runtime := {
  JSON_parse : string -> option jsval;       (* [None]: it throws SyntaxError *)
  StringToNumber : string -> num;            (* [Number(s)] on a string *)
  Number_toString : num -> string;           (* [String(n)] on a number *)
  Object_toString : jsval -> string;         (* [String(o)] on an array or an object *)
  encodeURIComponent : string -> string
}.

(** The order handed to the exchange client. *)
Record order := {
  token_id : jsval;
  price : num;
  size : num;
  side : Z;
  client_order_id : string;
  time_in_force : string;
  post_only : bool
}.

(** What [client.place] resolves to is a value of the exchange client:
    JSON data, or a value on which [JSON.stringify] throws (a BigInt, a
    cyclic object), of which the TypeError is kept. *)
Inductive ack : Type :=
| AckData (v : jsval)
| AckUnserializable (e : exn).

Record fills := {
  sharesBought : num;
  avgPrice : num;
  costUsd : num
}.

Record meta := {
  meta_tokenId : jsval;
  meta_priceFromBook : jsval
}.

(** The argument of [json(...)], or the text of a plain response. *)
Inductive body : Type :=
| BError (error : string)                               (* { ok:false, error } *)
| BErrorUndefined                                       (* { ok:false, error: undefined } *)
| BTrade (placed : ack) (f : fills) (m : meta)          (* { ok:true, order, fills, meta } *)
| BHealth (name : string) (time : Z)                    (* { ok:true, name, time } *)
| BText (text : string).

Record response := {
  status : Z;
  resp_body : body
}.

Record request := {
  method : string;
  pathname : string;
  X_HUD_Signature : option string;      (* [request.headers.get("X-HUD-Signature")] *)
  text : string                         (* [await request.text()] *)
}.

Record env := {
  HUD_SHARED_SECRET : option string;
  POLY_HOST : option string;
  CHAIN_ID : option string;
  PRIVATE_KEY : option string
}.

(** The answer of the metadata service to one [fetch]. *)
Record http_response := {
  r_ok : bool;
  r_status : Z;
  r_json : res jsval                    (* [await r.json()] *)
}.

Record wallet := { address : string }.

(** The collaborators, as this request meets them. *)
Record world := {
  gamma_fetch : string -> res http_response;
  new_Wallet : option string -> res wallet;
  new_ClobClient : string -> num -> wallet -> res unit;
  createOrDeriveApiKey : string -> res unit;
  place : order -> res ack;
  Date_now : Z
}.

(** One entry per call that leaves the worker. *)
Inductive event : Type :=
| CallFetch (url : string)
| CallWallet (privateKey : option string)
| CallClobClient (host : string) (chain : num) (signer : wallet)
| CallCreateOrDeriveApiKey (addr : string)
| CallPlace (o : order).

(** A computation: the calls it made, and its value or exception. *)
Definition M (A : Type) : Type := (list event * res A)%type.

Definition ret {A : Type} (a : A) : M A := ([], Ok a).
Definition throw {A : Type} (e : thrown_value) : M A := ([], Throw e).
Definition lift {A : Type} (r : res A) : M A := ([], r).

Definition bind {A B : Type} (m : M A) (k : A -> M B) : M B :=
  match m with
  | (log, Ok a) => let (log', r) := k a in (log ++ log', r)
  | (log, Throw e) => (log, Throw e)
  end.

(** [try { m } catch (e) { h e }] *)
Definition try_catch {A : Type} (m : M A) (h : thrown_value -> M A) : M A :=
  match m with
  | (log, Ok a) => (log, Ok a)
  | (log, Throw e) => let (log', r) := h e in (log ++ log', r)
  end.

(** A call to a collaborator: logged, then answered. *)
Definition call {A : Type} (ev : event) (r : res A) : M A := ([ev], r).

End Pipeline.

Arguments jsval num : clear implicits.
Arguments runtime num : clear implicits.
Arguments order num : clear implicits.
Arguments ack num : clear implicits.
Arguments fills num : clear implicits.
Arguments meta num : clear implicits.
Arguments body num : clear implicits.
Arguments response num : clear implicits.
Arguments http_response num : clear implicits.
Arguments world num : clear implicits.
Arguments event num : clear implicits.
Arguments M num : clear implicits.

Notation "x <- m ;; k" := (bind m (fun x => k))
  (at level 61, m at next level, right associativity).

Section Helpers.

Context {num : Type} {N : JsNumber num}.
Variable rt : runtime num.
Variable w : world num.

(** ** Coercions and property access *)

(** ToBoolean *)
Definition truthy (v : jsval num) : bool :=
  match v with
  | VUndef | VNull => false
  | VBool b => b
  | VNum n => num_truthy n
  | VStr s => negb (String.eqb s "")
  | VArr _ | VObj _ => true
  end.

(** [a || b] *)
Definition js_or (a b : jsval num) : jsval num := if truthy a then a else b.

(** [String(v)]; on an array or an object the conversion is the runtime's
    and is taken to return (it throws on an object whose own [toString] is
    not callable). *)
Definition ToString (v : jsval num) : string :=
  match v with
  | VUndef => "undefined"
  | VNull => "null"
  | VBool true => "true"
  | VBool false => "false"
  | VNum n => Number_toString rt n
  | VStr s => s
  | VArr _ | VObj _ => Object_toString rt v
  end.

(** [Number(v)], and the ToNumber of the arithmetic operators; on an
    array or an object it goes through the conversion to a string, taken
    to return as above. *)
Definition ToNumber (v : jsval num) : num :=
  match v with
  | VUndef => num_nan
  | VNull => num_of_Z 0
  | VBool true => num_of_Z 1
  | VBool false => num_of_Z 0
  | VNum n => n
  | VStr s => StringToNumber rt s
  | VArr _ | VObj _ => StringToNumber rt (Object_toString rt v)
  end.

Fixpoint lookup (k : string) (fs : list (string * jsval num)) : jsval num :=
  match fs with
  | [] => VUndef
  | (k', v) :: r => if String.eqb k k' then v else lookup k r
  end.

(** [v.k] on a value that is neither [null] nor [undefined], for a name
    [k] that no prototype defines. *)
Definition prop (v : jsval num) (k : string) : jsval num :=
  match v with
  | VObj fs => lookup k fs
  | _ => VUndef
  end.

Definition nullish (v : jsval num) : bool :=
  match v with
  | VUndef | VNull => true
  | _ => false
  end.

(** [v.k]: a TypeError on [null] and [undefined] (V8's wording). *)
Definition member (v : jsval num) (k : string) : res (jsval num) :=
  match v with
  | VUndef => Throw (Exn ("Cannot read properties of undefined (reading '" ++ k ++ "')"))
  | VNull => Throw (Exn ("Cannot read properties of null (reading '" ++ k ++ "')"))
  | _ => Ok (prop v k)
  end.

(** [v[i]] on a value that is neither [null] nor [undefined]. *)
Definition index (v : jsval num) (i : nat) : jsval num :=
  match v with
  | VArr l => nth i l VUndef
  | VStr s => match String.get i s with
              | Some c => VStr (String c EmptyString)
              | None => VUndef
              end
  | VObj fs => lookup (decimal (Z.of_nat i)) fs
  | _ => VUndef
  end.

(** [v?.[i]] and [v?.k] *)
Definition opt_index (v : jsval num) (i : nat) : jsval num :=
  if nullish v then VUndef else index v i.

Definition opt_prop (v : jsval num) (k : string) : jsval num :=
  if nullish v then VUndef else prop v k.

(** [l.findIndex(p)], counting from [i]. *)
Fixpoint findIndex_from {A : Type} (p : A -> bool) (l : list A) (i : Z) : Z :=
  match l with
  | [] => -1
  | x :: r => if p x then i else findIndex_from p r (i + 1)
  end.

Definition findIndex {A : Type} (p : A -> bool) (l : list A) : Z :=
  findIndex_from p l 0.

(** [names.includes(s)] on strings *)
Definition includes (names : list string) (s : string) : bool :=
  existsb (String.eqb s) names.

(** [v === "..."] *)
Definition is_str (v : jsval num) (s : string) : bool :=
  match v with
  | VStr s' => String.eqb s' s
  | _ => false
  end.

(** ** [json] / [j] *)

(** [{ ok: false, error: m }] for [m] a string or [undefined]. *)
Definition error_body (m : option string) : body num :=
  match m with
  | Some s => BError s
  | None => BErrorUndefined
  end.

(** The exception of [JSON.stringify(data)], if it throws. *)
Definition stringify_error (data : body num) : option exn :=
  match data with
  | BTrade (AckUnserializable e) _ _ => Some e
  | _ => None
  end.

Definition json (data : body num) (st : Z) : M num (response num) :=
  match stringify_error data with
  | Some e => throw e
  | None => ret {| status := st; resp_body := data |}
  end.

(** ** [clamp01] *)

Definition clamp01 (x : jsval num) : num :=
  let x := ToNumber x in
  if negb (num_isFinite x) then num_nan
  else num_max (num_of_Z 0) (num_min (num_of_Z 1) x).

(** ** [resolveTokenId] *)

Inductive resolved : Type :=
| Resolved (tokenId priceFromBook : jsval num)      (* { ok:true, tokenId, priceFromBook } *)
| Unresolved (error : string).                      (* { ok:false, error } *)

Definition gamma_markets : string :=
  "https://gamma-api.polymarket.com/markets?limit=50&active=true".

Definition wantNames (side : jsval num) : list string :=
  if is_str side "YES" then ["Up"; "Yes"; "YES"] else ["Down"; "No"; "NO"].

(** [(m.outcomes || []).findIndex(...)]: a TypeError when the truthy
    [m.outcomes] is not an array. *)
Definition outcome_index (outcomes side : jsval num) : res Z :=
  match js_or outcomes (VArr []) with
  | VArr l => Ok (findIndex (fun o => includes (wantNames side) (trim (ToString o))) l)
  | _ => Throw (Exn "(m.outcomes || []).findIndex is not a function")
  end.

(** The slot: the match if there is one, else 0 for YES and 1 for NO. *)
Definition use_slot (idx : Z) (side : jsval num) : nat :=
  if idx >=? 0 then Z.to_nat idx else if is_str side "YES" then 0%nat else 1%nat.

(** [m.tokens?.[use]?.token_id || m.tokens?.[use]?.tokenId] *)
Definition token_at (tokens : jsval num) (use : nat) : jsval num :=
  js_or (opt_prop (opt_index tokens use) "token_id")
        (opt_prop (opt_index tokens use) "tokenId").

Definition isArray (v : jsval num) : bool :=
  match v with
  | VArr _ => true
  | _ => false
  end.

(** The [let priceFromBook; if (...) {...}] block. *)
Definition book_price (best_ask : jsval num) (use : nat) : jsval num :=
  if truthy best_ask && isArray best_ask && negb (nullish (index best_ask use)) then
    let v := ToNumber (index best_ask use) in
    if num_isFinite v then VNum (clamp01 (VNum v)) else VUndef
  else VUndef.

(** The part of [resolveTokenId] after [const m = arr[0]]. *)
Definition select_token (m side : jsval num) : res resolved :=
  match member m "outcomes" with
  | Throw e => Throw e
  | Ok outcomes =>
      match outcome_index outcomes side with
      | Throw e => Throw e
      | Ok idx =>
          let use := use_slot idx side in
          let tokenId := token_at (prop m "tokens") use in
          if negb (truthy tokenId) then Ok (Unresolved "Missing tokenId")
          else Ok (Resolved tokenId (book_price (prop m "best_ask") use))
      end
  end.

(** The [if (conditionId) ... else if (marketId) ... else] that builds
    [url]; [None] is the early return. *)
Definition lookup_url (conditionId marketId : jsval num) : option string :=
  if truthy conditionId then
    Some (gamma_markets ++ "&condition_ids="
          ++ encodeURIComponent rt (ToString conditionId))%string
  else if truthy marketId then
    Some (gamma_markets ++ "&slug="
          ++ encodeURIComponent rt (ToString marketId))%string
  else None.

Definition resolveTokenId (conditionId marketId side : jsval num) : M num resolved :=
  try_catch
    (match lookup_url conditionId marketId with
     | None => ret (Unresolved "No conditionId/marketId to resolve tokenId")
     | Some url =>
         r <- call (CallFetch url) (gamma_fetch w url) ;;
         if negb (r_ok r) then ret (Unresolved ("Gamma API " ++ decimal (r_status r)))
         else
           arr <- lift (r_json r) ;;
           match arr with
           | VArr (m :: _) => lift (select_token m side)
           | _ => ret (Unresolved "No market found")
           end
     end)
    (fun e => m <- lift (message_of e) ;;
              ret (Unresolved ("resolveTokenId error: " ++ interpolate m))).

(** ** What [handleTrade] does the same way in both files *)

(** [x || d] on a string that may be missing. *)
Definition str_or (x : option string) (d : string) : string :=
  match x with
  | Some s => if String.eqb s "" then d else s
  | None => d
  end.

(** [Number(env.CHAIN_ID || 137)] *)
Definition chain_of (e : env) : num :=
  match CHAIN_ID e with
  | Some s => if String.eqb s "" then num_of_Z 137 else StringToNumber rt s
  | None => num_of_Z 137
  end.

(** [slippage = 0.01] in the destructuring pattern: the default is taken
    when the property is [undefined], and only then. *)
Definition slippage_of (payload : jsval num) : jsval num :=
  match prop payload "slippage" with
  | VUndef => VNum num_0_01
  | v => v
  end.

(** [clamp01(Number(ask) * (1 + Number(slippage || 0)))] *)
Definition order_price (ask slippage : jsval num) : num :=
  clamp01 (VNum (num_mul (ToNumber ask)
                         (num_add (num_of_Z 1)
                                  (ToNumber (js_or slippage (VNum (num_of_Z 0))))))).

(** [amountUsd / price] *)
Definition order_shares (amountUsd : jsval num) (p : num) : num :=
  num_div (ToNumber amountUsd) p.

Definition make_order (tokenId side_ : jsval num) (p shares : num) : order num :=
  {| token_id := tokenId;
     price := p;
     size := shares;
     side := if is_str side_ "YES" then 0 else 1;
     client_order_id := "hud-" ++ decimal (Date_now w);
     time_in_force := "IOC";
     post_only := false |}.

Definition make_fills (p shares : num) : fills num :=
  {| sharesBought := shares; avgPrice := p; costUsd := num_mul shares p |}.

(** Destructuring [null] or [undefined] is a TypeError (V8's wording). *)
Definition destructure_error (payload : jsval num) : exn :=
  Exn ("Cannot destructure property 'conditionId' of 'payload' as it is "
       ++ ToString payload ++ ".").

End Helpers.

(** ** [handleTrade] and [fetch] of [src/worker.js] *)

Module Worker.
Section Build.

Context {num : Type} {N : JsNumber num}.
Variable rt : runtime num.
Variable w : world num.

(** Steps 4 and 5 of [handleTrade]: from [const price] to the end. *)
Definition submit (env : env) (tokenId priceFromBook side ask amountUsd slippage : jsval num)
  : M num (response num) :=
  (* 4) Build order fields *)
  let price := order_price rt ask slippage in
  let shares := order_shares rt amountUsd price in
  (* 5) Init client (Node compat) *)
  let host := str_or (POLY_HOST env) "https://clob.polymarket.com" in
  let chain := chain_of rt env in
  signer <- call (CallWallet (PRIVATE_KEY env)) (new_Wallet w (PRIVATE_KEY env)) ;;
  _ <- call (CallClobClient host chain signer) (new_ClobClient w host chain signer) ;;
  (* Create or derive API key for this address *)
  let addr := toLowerCase (address signer) in
  _ <- call (CallCreateOrDeriveApiKey addr) (createOrDeriveApiKey w addr) ;;
  let order := make_order w tokenId side price shares in
  try_catch
    (placed <- call (CallPlace order) (place w order) ;;
     json (BTrade placed (make_fills price shares)
                  {| meta_tokenId := tokenId; meta_priceFromBook := priceFromBook |})
          200)
    (fun e => m <- lift (message_of e) ;;
              json (BError ("place() failed: " ++ interpolate m)) 502).

Definition handleTrade (request : request) (env : env) : M num (response num) :=
  (* 1) Verify HUD HMAC *)
  let sig := str_or (X_HUD_Signature request) "" in
  if negb (startsWith sig "sha256=") then
    json (BError "Missing/invalid signature") 401
  else
  let body := text request in
  if negb (verifyHmac (HUD_SHARED_SECRET env) body (slice 7 sig)) then
    json (BError "Signature mismatch") 401
  else
  (* 2) Parse payload *)
  match JSON_parse rt body with
  | None => json (BError "Bad JSON") 400
  | Some payload =>
  if nullish payload then throw (destructure_error rt payload) else
  let conditionId := prop payload "conditionId" in
  let marketId := prop payload "marketId" in
  let side := prop payload "side" in
  let ask := prop payload "ask" in
  let amountUsd := prop payload "amountUsd" in
  let slippage := slippage_of payload in
  if negb (truthy side) || negb (truthy amountUsd) || negb (truthy ask) then
    json (BError "Missing side/amountUsd/ask") 400
  else if negb (is_str side "YES" || is_str side "NO") then
    json (BError "side must be YES or NO") 400
  else
  (* 3) Resolve token *)
  resolved <- resolveTokenId rt w conditionId marketId side ;;
  match resolved with
  | Unresolved err => json (BError err) 400
  | Resolved tokenId priceFromBook =>
      submit env tokenId priceFromBook side ask amountUsd slippage
  end
  end.

Definition fetch (request : request) (env : env) : M num (response num) :=
  try_catch
    (if String.eqb (pathname request) "/health" then
       json (BHealth "poly-trader" (Date_now w)) 200
     else if String.eqb (pathname request) "/trade" && String.eqb (method request) "POST" then
       handleTrade request env
     else ret {| status := 404; resp_body := BText "Not found" |})
    (fun e => m <- lift (message_of e) ;; json (error_body m) 500).

End Build.
End Worker.

(** ** [handleTrade] and [fetch] of [src/unnamed/part_000] *)

Module Part000.
Section Build.

Context {num : Type} {N : JsNumber num}.
Variable rt : runtime num.
Variable w : world num.

(** From [const price] to the end of [handleTrade].  The [return] inside
    [catch] leaves the function: [inr] carries its response past the rest. *)
Definition submit (env : env) (tokenId priceFromBook side ask amountUsd slippage : jsval num)
  : M num (response num) :=
  (* Price/shares *)
  let price := order_price rt ask slippage in
  let shares := order_shares rt amountUsd price in
  (* Polymarket client (browser build) *)
  let host := str_or (POLY_HOST env) "https://clob.polymarket.com" in
  let chain := chain_of rt env in
  signer <- call (CallWallet (PRIVATE_KEY env)) (new_Wallet w (PRIVATE_KEY env)) ;;
  _ <- call (CallClobClient host chain signer) (new_ClobClient w host chain signer) ;;
  (* Ensure API key exists *)
  let addr := toLowerCase (address signer) in
  _ <- call (CallCreateOrDeriveApiKey addr) (createOrDeriveApiKey w addr) ;;
  let order := make_order w tokenId side price shares in
  placed <- try_catch
              (p <- call (CallPlace order) (place w order) ;; ret (inl p))
              (fun e => m <- lift (message_of e) ;;
                        r <- json (BError ("place() failed: " ++ interpolate m)) 502 ;;
                        ret (inr r)) ;;
  match placed with
  | inr returned => ret returned
  | inl placed =>
      json (BTrade placed (make_fills price shares)
                   {| meta_tokenId := tokenId; meta_priceFromBook := priceFromBook |})
           200
  end.

Definition handleTrade (request : request) (env : env) : M num (response num) :=
  (* HMAC check from HUD *)
  let sig := str_or (X_HUD_Signature request) "" in
  if negb (startsWith sig "sha256=") then
    json (BError "Missing/invalid signature") 401
  else
  let body := text request in
  if negb (verifyHmac (HUD_SHARED_SECRET env) body (slice 7 sig)) then
    json (BError "Signature mismatch") 401
  else
  match JSON_parse rt body with
  | None => json (BError "Bad JSON") 400
  | Some payload =>
  if nullish payload then throw (destructure_error rt payload) else
  let conditionId := prop payload "conditionId" in
  let marketId := prop payload "marketId" in
  let side := prop payload "side" in
  let ask := prop payload "ask" in
  let amountUsd := prop payload "amountUsd" in
  let slippage := slippage_of payload in
  if negb (truthy side) || negb (truthy amountUsd) || negb (truthy ask) then
    json (BError "Missing side/amountUsd/ask") 400
  else if negb (is_str side "YES" || is_str side "NO") then
    json (BError "side must be YES or NO") 400
  else
  (* Resolve tokenId (Gamma) *)
  resolved <- resolveTokenId rt w conditionId marketId side ;;
  match resolved with
  | Unresolved err => json (BError err) 400
  | Resolved tokenId priceFromBook =>
      submit env tokenId priceFromBook side ask amountUsd slippage
  end
  end.

Definition fetch (request : request) (env : env) : M num (response num) :=
  try_catch
    (if String.eqb (pathname request) "/health" then
       json (BHealth "poly-trader" (Date_now w)) 200
     else if String.eqb (pathname request) "/trade" && String.eqb (method request) "POST" then
       handleTrade request env
     else ret {| status := 404; resp_body := BText "Not found" |})
    (fun e => m <- lift (message_of e) ;; json (error_body m) 500).

End Build.
End Part000.

(** The two builds, to state a property of both at once. *)
Inductive build : Type :=
| NodeCompat        (* src/worker.js *)
| Browser.          (* src/unnamed/part_000 *)

Definition handleTrade_of {num : Type} {N : JsNumber num} (b : build)
  : runtime num -> world num -> request -> env -> M num (response num) :=
  match b with
  | NodeCompat => Worker.handleTrade
  | Browser => Part000.handleTrade
  end.

Definition fetch_of {num : Type} {N : JsNumber num} (b : build)
  : runtime num -> world num -> request -> env -> M num (response num) :=
  match b with
  | NodeCompat => Worker.fetch
  | Browser => Part000.fetch
  end.

(** ** Words to state the properties *)

Definition submit_of {num : Type} {N : JsNumber num} (b : build)
  : runtime num -> world num -> env ->
    jsval num -> jsval num -> jsval num -> jsval num -> jsval num -> jsval num ->
    M num (response num) :=
  match b with
  | NodeCompat => Worker.submit
  | Browser => Part000.submit
  end.

(** The header the handler reads: [headers.get(...) || ""]. *)
Definition presented (r : request) : string := str_or (X_HUD_Signature r) "".

(** The request passes step 1. *)
Definition authenticated (e : env) (r : request) : Prop :=
  startsWith (presented r) "sha256=" = true /\
  verifyHmac (HUD_SHARED_SECRET e) (text r) (slice 7 (presented r)) = true.

(** The payload passes step 2. *)
Definition valid_payload {num : Type} {N : JsNumber num} (payload : jsval num) : Prop :=
  nullish payload = false /\
  truthy (prop payload "side") = true /\
  truthy (prop payload "amountUsd") = true /\
  truthy (prop payload "ask") = true /\
  (is_str (prop payload "side") "YES" || is_str (prop payload "side") "NO") = true.

(** The calls of a run that reaches [client.place]. *)
Definition submission_calls {num : Type} {N : JsNumber num}
  (rt : runtime num) (e : env) (signer : wallet) (o : order num) : list (event num) :=
  [ CallWallet (PRIVATE_KEY e);
    CallClobClient (str_or (POLY_HOST e) "https://clob.polymarket.com") (chain_of rt e) signer;
    CallCreateOrDeriveApiKey (toLowerCase (address signer));
    CallPlace o ].

(** How often [client.place] was called. *)
Definition places {num : Type} (log : list (event num)) : nat :=
  List.length (filter (fun ev => match ev with CallPlace _ => true | _ => false end) log).

(** The two early answers of [handleTrade]. *)
Definition unauthorized {num : Type} (msg : string) : M num (response num) :=
  ([], Ok {| status := 401; resp_body := BError msg |}).

Definition bad_request {num : Type} (msg : string) : M num (response num) :=
  ([], Ok {| status := 400; resp_body := BError msg |}).

(** ** A worked request *)

Section Fixture.

Context {num : Type} {N : JsNumber num}.

(** The double quote, and a name or string between quotes, to write JSON
    texts. *)
Definition dquote : string := String (ascii_of_nat 34) EmptyString.
Definition quoted (s : string) : string := (dquote ++ s ++ dquote)%string.

(** The text of a trade instruction on market [btc-up], side YES, ask 0.5
    and 100 USD; [slippage_text] is the slippage member with its comma, or
    nothing. *)
Definition trade_text (slippage_text : string) : string :=
  ("{" ++ quoted "marketId" ++ ":" ++ quoted "btc-up" ++ ","
       ++ quoted "side" ++ ":" ++ quoted "YES" ++ ","
       ++ quoted "ask" ++ ":0.5,"
       ++ quoted "amountUsd" ++ ":100" ++ slippage_text ++ "}")%string.

Definition with_slippage (literal : string) : string :=
  ("," ++ quoted "slippage" ++ ":" ++ literal)%string.

(** What [JSON.parse] makes of it; [half] and [hundred] are 0.5 and 100. *)
Definition trade_payload (half hundred : num) (slippage : list (string * jsval num))
  : jsval num :=
  VObj ([ ("marketId", VStr "btc-up"); ("side", VStr "YES");
          ("ask", VNum half); ("amountUsd", VNum hundred) ] ++ slippage).

Fixpoint assoc {A : Type} (k : string) (table : list (string * A)) : option A :=
  match table with
  | [] => None
  | (k', v) :: r => if String.eqb k k' then Some v else assoc k r
  end.

(** A runtime that parses the texts of [table] and no other; no number
    is written as a string in these examples. *)
Definition example_runtime (table : list (string * jsval num)) : runtime num :=
  {| JSON_parse := fun s => assoc s table;
     StringToNumber := fun _ => num_nan;
     Number_toString := fun _ => "NaN";
     Object_toString := fun _ => "[object Object]";
     encodeURIComponent := fun s => s |}.

(** The first testable descriptor of the specification. *)
Definition example_market : jsval num :=
  VObj [ ("outcomes", VArr [VStr "Yes"; VStr "No"]);
         ("tokens", VArr [ VObj [("token_id", VStr "A")];
                           VObj [("token_id", VStr "B")] ]) ].

(** Collaborators that answer; [keyed] and [placed] are the answers of
    [createOrDeriveApiKey] and [place]. *)
Definition example_world (keyed : res unit) (placed : res (ack num)) : world num :=
  {| gamma_fetch := fun _ => Ok {| r_ok := true; r_status := 200;
                                    r_json := Ok (VArr [example_market]) |};
     new_Wallet := fun _ => Ok {| address := "0xAbC1" |};
     new_ClobClient := fun _ _ _ => Ok tt;
     createOrDeriveApiKey := fun _ => keyed;
     place := fun _ => placed;
     Date_now := 1700000000000 |}.

Definition example_env : env :=
  {| HUD_SHARED_SECRET := Some "s3cret";
     POLY_HOST := None;
     CHAIN_ID := None;
     PRIVATE_KEY := Some "0x01" |}.

(** A POST to [/trade] as the HUD signs it. *)
Definition signed_request (secret body : string) : request :=
  {| method := "POST";
     pathname := "/trade";
     X_HUD_Signature := Some ("sha256=" ++ hmac_hex secret body)%string;
     text := body |}.

Definition example_ack : ack num := AckData (VObj [("orderID", VStr "0x1")]).

End Fixture.

(** The worked request: the end-to-end example of the specification. *)
Definition example_text : string := trade_text (with_slippage "0.02").

Definition example_runtime64 : runtime float :=
  example_runtime
    [ (example_text, trade_payload 0.5%float 100%float [("slippage", VNum 0.02%float)]) ].

Definition example_request : request := signed_request "s3cret" example_text.

Definition example_calls (o : order float) : list (event float) :=
  CallFetch "https://gamma-api.polymarket.com/markets?limit=50&active=true&slug=btc-up"
  :: submission_calls example_runtime64 example_env {| address := "0xAbC1" |} o.

Definition example_order : order float :=
  {| token_id := VStr "A";
     price := 0.51%float;
     size := (100 / 0.51)%float;
     side := 0;
     client_order_id := "hud-1700000000000";
     time_in_force := "IOC";
     post_only := false |}.

(** The worked request without a [slippage] member, with [slippage: 0] and
    with [slippage: null]. *)
Definition slippage_runtime64 : runtime float :=
  example_runtime
    [ (trade_text EmptyString, trade_payload 0.5%float 100%float []);
      (trade_text (with_slippage "0"),
       trade_payload 0.5%float 100%float [("slippage", VNum 0%float)]);
      (trade_text (with_slippage "null"),
       trade_payload 0.5%float 100%float [("slippage", VNull)]) ].

Definition example_runtime_exact : runtime xnum :=
  example_runtime
    [ (example_text,
       trade_payload (Exact.frac 1 2) (Exact.of_Z 100)
                     [("slippage", VNum (Exact.frac 2 100))]) ].

(** Descriptors to try: names in other words, in another case, padded,
    and tokens under the camelCase name. *)
Definition market_of (outcomes : list string) (token_field : string) : jsval float :=
  VObj [ ("outcomes", VArr (map VStr outcomes));
         ("tokens", VArr [ VObj [(token_field, VStr "A")];
                           VObj [(token_field, VStr "B")] ]) ].

Definition world_of (m : jsval float) : world float :=
  {| gamma_fetch := fun _ => Ok {| r_ok := true; r_status := 200; r_json := Ok (VArr [m]) |};
     new_Wallet := fun _ => Ok {| address := "0xAbC1" |};
     new_ClobClient := fun _ _ _ => Ok tt;
     createOrDeriveApiKey := fun _ => Ok tt;
     place := fun _ => Ok example_ack;
     Date_now := 1700000000000 |}.

Definition resolve_example (m : jsval float) (side_ : string) : res resolved :=
  snd (resolveTokenId example_runtime64 (world_of m) VUndef (VStr "btc-up") (VStr side_)).

(** ** Words for the properties of whole runs *)

(** The place of a call in the order in which a run makes its calls. *)
Definition call_rank {num : Type} (ev : event num) : nat :=
  match ev with
  | CallFetch _ => 0
  | CallWallet _ => 1
  | CallClobClient _ _ _ => 2
  | CallCreateOrDeriveApiKey _ => 3
  | CallPlace _ => 4
  end.



(** A byte of a [Uint8Array]. *)
Definition is_byte (b : Z) : Prop := 0 <= b < 256.

(** Worlds in which something is missing: no market under the slug, and a
    private key that the wallet refuses. *)
Definition no_market_world : world float :=
  {| gamma_fetch := fun _ => Ok {| r_ok := true; r_status := 200; r_json := Ok (VArr []) |};
     new_Wallet := fun _ => Ok {| address := "0xAbC1" |};
     new_ClobClient := fun _ _ _ => Ok tt;
     createOrDeriveApiKey := fun _ => Ok tt;
     place := fun _ => Ok example_ack;
     Date_now := 1700000000000 |}.

Definition bad_key_world : world float :=
  {| gamma_fetch := fun _ => Ok {| r_ok := true; r_status := 200;
                                    r_json := Ok (VArr [example_market]) |};
     new_Wallet := fun _ => Throw (Exn "invalid private key");
     new_ClobClient := fun _ _ _ => Ok tt;
     createOrDeriveApiKey := fun _ => Ok tt;
     place := fun _ => Ok example_ack;
     Date_now := 1700000000000 |}.

(** A wallet constructor that throws [null]. *)
Definition null_key_world : world float :=
  {| gamma_fetch := fun _ => Ok {| r_ok := true; r_status := 200;
                                    r_json := Ok (VArr [example_market]) |};
     new_Wallet := fun _ => Throw ThrownNull;
     new_ClobClient := fun _ _ _ => Ok tt;
     createOrDeriveApiKey := fun _ => Ok tt;
     place := fun _ => Ok example_ack;
     Date_now := 1700000000000 |}.

Definition example_url : string :=
  "https://gamma-api.polymarket.com/markets?limit=50&active=true&slug=btc-up".

(** A metadata service that is down, and a request that names no market. *)
Definition unavailable_world : world float :=
  {| gamma_fetch := fun _ => Ok {| r_ok := false; r_status := 503;
                                    r_json := Throw (Exn "Unexpected token") |};
     new_Wallet := fun _ => Ok {| address := "0xAbC1" |};
     new_ClobClient := fun _ _ _ => Ok tt;
     createOrDeriveApiKey := fun _ => Ok tt;
     place := fun _ => Ok example_ack;
     Date_now := 1700000000000 |}.

(** A lookup that rejects without a reason: with [undefined]. *)
Definition rejecting_world : world float :=
  {| gamma_fetch := fun _ => Throw ThrownUndefined;
     new_Wallet := fun _ => Ok {| address := "0xAbC1" |};
     new_ClobClient := fun _ _ _ => Ok tt;
     createOrDeriveApiKey := fun _ => Ok tt;
     place := fun _ => Ok example_ack;
     Date_now := 1700000000000 |}.

(** A descriptor with quotes on the book: one within bounds, one above. *)
Definition quoted_market : jsval float :=
  VObj [ ("outcomes", VArr [VStr "Yes"; VStr "No"]);
         ("tokens", VArr [ VObj [("token_id", VStr "A")];
                           VObj [("token_id", VStr "B")] ]);
         ("best_ask", VArr [VNum 0.37%float; VNum 1.25%float]) ].

(** A trade instruction for 0 USD, and its parse. *)
Definition zero_amount_text : string :=
  ("{" ++ quoted "marketId" ++ ":" ++ quoted "btc-up" ++ ","
       ++ quoted "side" ++ ":" ++ quoted "YES" ++ ","
       ++ quoted "ask" ++ ":0.5,"
       ++ quoted "amountUsd" ++ ":0}")%string.

Definition zero_amount_runtime : runtime float :=
  example_runtime [ (zero_amount_text, trade_payload 0.5%float 0%float []) ].

(** An answer without the advisory price: what of it does not come from
    the book. *)
Definition without_book_price {num : Type} (out : res (response num)) : res (response num) :=
  match out with
  | Ok {| status := st; resp_body := BTrade placed f m |} =>
      Ok {| status := st;
            resp_body := BTrade placed f {| meta_tokenId := meta_tokenId m;
                                            meta_priceFromBook := VUndef |} |}
  | other => other
  end.

(** * Properties *)

(** ** The hash, on published vectors *)

Example sha256_abc :
  hex_of_bytes (Sha256.digest (TextEncoder_encode "abc"))
  = "ba7816bf8f01cfea414140de5dae2223b00361a396177a9cb410ff61f20015ad".
Proof. vm_compute. reflexivity. Qed.

Example hmac_rfc4231_case2 :
  hmac_hex "Jefe" "what do ya want for nothing?"
  = "5bdcc146bf60754e6a042426089575c75a003f089d2739839dec58b964ec3843".
Proof. vm_compute. reflexivity. Qed.

Example hmac_long_key :
  hmac_hex (String.concat "" (repeat "k" 70)) "x"
  = "9aaa34ef38bff9e3d571e60f9b6eadbc378f6177d2e7f8d156d458b21cfc62cb".
Proof. vm_compute. reflexivity. Qed.

Example hmac_latin1_key :
  hmac_hex (String "s" (String (ascii_of_code 233) EmptyString)) ""
  = "2af9e7d92db4624f33111671871586ad0af32fc4ef8c0de01e16306e176669e8".
Proof. vm_compute. reflexivity. Qed.

(** ** [timingSafeEqual] *)

Lemma tse_loop_visits (a b : string) (n i : nat) (x : Z) (tr : list nat) :
  snd (tse_loop a b n i (x, tr)) = tr ++ seq i n.
Proof.
  revert i x tr. induction n as [|n IH]; intros i x tr; simpl.
  - now rewrite app_nil_r.
  - rewrite IH, <- app_assoc. reflexivity.
Qed.

Lemma tse_loop_accumulates (a b : string) (n i : nat) (x : Z) (tr : list nat) :
  fst (tse_loop a b n i (x, tr)) = fold_left Z.lor (map (xor_at a b) (seq i n)) x.
Proof.
  revert i x tr. induction n as [|n IH]; intros i x tr; simpl.
  - reflexivity.
  - now rewrite IH.
Qed.

Lemma fold_lor_from (l : list Z) (x : Z) :
  fold_left Z.lor l x = Z.lor x (fold_left Z.lor l 0).
Proof.
  revert x. induction l as [|y l IH]; intro x; simpl.
  - now rewrite Z.lor_0_r.
  - rewrite (IH (Z.lor x y)), (IH y), Z.lor_assoc. reflexivity.
Qed.

Lemma xor_at_shift (c d : ascii) (a b : string) (i n : nat) :
  map (xor_at (String c a) (String d b)) (seq (S i) n) = map (xor_at a b) (seq i n).
Proof.
  rewrite <- seq_shift, map_map. apply map_ext. reflexivity.
Qed.

Lemma charCode_inj (c d : ascii) : charCode c = charCode d -> c = d.
Proof.
  unfold charCode. intro H. apply Nat2Z.inj in H.
  rewrite <- (ascii_nat_embedding c), <- (ascii_nat_embedding d). now rewrite H.
Qed.

Lemma accumulator_zero_iff (a b : string) :
  String.length a = String.length b ->
  (fold_left Z.lor (map (xor_at a b) (seq 0 (String.length a))) 0 = 0 <-> a = b).
Proof.
  revert b. induction a as [|c a IH]; intros [|d b] Hlen; simpl in Hlen; try discriminate.
  - simpl. tauto.
  - injection Hlen as Hlen. cbn [String.length seq map fold_left].
    rewrite xor_at_shift, fold_lor_from, Z.lor_eq_0_iff, (IH b Hlen).
    unfold xor_at, charCodeAt. cbn [String.get]. rewrite Z.lor_0_l, Z.lxor_eq_0_iff.
    split.
    + intros [Hc ->]. now rewrite (charCode_inj _ _ Hc).
    + intro H. injection H as -> ->. tauto.
Qed.

Lemma timingSafeEqual_true_iff (a b : string) :
  timingSafeEqual a b = true <-> a = b.
Proof.
  unfold timingSafeEqual, timingSafeEqual_run.
  destruct (Nat.eqb_spec (String.length a) (String.length b)) as [Hlen|Hlen]; simpl.
  - rewrite tse_loop_accumulates, Z.eqb_eq. now apply accumulator_zero_iff.
  - split; [discriminate|]. intros ->. now elim Hlen.
Qed.

(** C8. [timingSafeEqual] compares lengths first and answers [false] on
    unequal lengths without reading a character; on equal lengths it reads
    every position in order, whatever the contents, its accumulator is the
    OR of the XORs of all the positions, and it answers [true] exactly on
    equal strings; so the positions read by two runs on equally long inputs
    are the same, wherever the first mismatch is. *)
Theorem timingSafeEqual_constant_time :
  (forall a b : string,
      String.length a <> String.length b ->
      timingSafeEqual_run a b = (false, [])) /\
  (forall a b : string,
      String.length a = String.length b ->
      timingSafeEqual_run a b
      = (fold_left Z.lor (map (xor_at a b) (seq 0 (String.length a))) 0 =? 0,
         seq 0 (String.length a))) /\
  (forall a b : string, timingSafeEqual a b = true <-> a = b) /\
  (forall a b a' b' : string,
      String.length a = String.length b ->
      String.length a' = String.length b' ->
      String.length a = String.length a' ->
      snd (timingSafeEqual_run a b) = snd (timingSafeEqual_run a' b')).
Proof.
  assert (Hneq : forall a b, String.length a <> String.length b ->
                             timingSafeEqual_run a b = (false, [])).
  { intros a b H. unfold timingSafeEqual_run.
    destruct (Nat.eqb_spec (String.length a) (String.length b)); [contradiction|reflexivity]. }
  assert (Heq : forall a b, String.length a = String.length b ->
      timingSafeEqual_run a b
      = (fold_left Z.lor (map (xor_at a b) (seq 0 (String.length a))) 0 =? 0,
         seq 0 (String.length a))).
  { intros a b H. unfold timingSafeEqual_run.
    rewrite (proj2 (Nat.eqb_eq _ _) H). cbn [negb].
    now rewrite tse_loop_accumulates, tse_loop_visits. }
  repeat split; auto.
  - now apply timingSafeEqual_true_iff.
  - now apply timingSafeEqual_true_iff.
  - intros a b a' b' H H' Hlen. rewrite (Heq a b H), (Heq a' b' H'). simpl. now rewrite Hlen.
Qed.

Lemma timingSafeEqual_constant_time_witness :
  timingSafeEqual_run "abc" "ab" = (false, [])
  /\ timingSafeEqual_run "xbc" "abc" = (false, [0; 1; 2]%nat)
  /\ snd (timingSafeEqual_run "xbc" "abc") = snd (timingSafeEqual_run "abx" "abc").
Proof.
  destruct timingSafeEqual_constant_time as (Hneq & Heq & _ & Hsame).
  split; [|split].
  - apply (Hneq "abc" "ab"). simpl. lia.
  - apply (Heq "xbc" "abc"). reflexivity.
  - apply (Hsame "xbc" "abc" "abx" "abc"); reflexivity.
Defined.

(** ** [verifyHmac] *)

Arguments hmac_hex : simpl never.

Lemma lower_hex_digit (d : Z) : lower_char (hex_digit d) = hex_digit d.
Proof.
  unfold hex_digit. generalize (Z.to_nat d). intro n.
  do 16 (destruct n as [|n]; [reflexivity|]). reflexivity.
Qed.

Lemma toLowerCase_app (a b : string) :
  toLowerCase (a ++ b) = (toLowerCase a ++ toLowerCase b)%string.
Proof.
  induction a as [|c a IH]; simpl; [reflexivity|now rewrite IH].
Qed.

Lemma lower_hex_byte (b : Z) :
  toLowerCase (padStart2 (toString16 b)) = padStart2 (toString16 b).
Proof.
  unfold toString16. destruct (b <? 16); cbn [padStart2 toLowerCase];
    rewrite ?lower_hex_digit; reflexivity.
Qed.

(** The digest is rendered in lowercase: lowercasing it changes nothing. *)
Lemma toLowerCase_hex (bs : list Z) :
  toLowerCase (hex_of_bytes bs) = hex_of_bytes bs.
Proof.
  induction bs as [|b bs IH]; simpl; [reflexivity|].
  now rewrite toLowerCase_app, lower_hex_byte, IH.
Qed.

Lemma verifyHmac_true_iff (S B sig : string) :
  S <> EmptyString ->
  (verifyHmac (Some S) B sig = true <-> toLowerCase sig = hmac_hex S B).
Proof.
  intro HS. destruct S as [|c S]; [contradiction|].
  unfold verifyHmac. rewrite timingSafeEqual_true_iff. split; congruence.
Qed.

(** C3, as amended. Under a non-empty secret the digest itself verifies,
    and a presented signature verifies exactly when its lowercase form is
    the digest: it fails for every signature whose lowercase form differs
    from the digest, and for the digest of a body whose digest differs.
    Without a secret, or with an empty one, nothing verifies. *)
Theorem verifyHmac_accepts_exactly_the_digest_up_to_case :
  (forall S B : string,
      S <> EmptyString -> verifyHmac (Some S) B (hmac_hex S B) = true) /\
  (forall S B sig : string,
      S <> EmptyString ->
      (verifyHmac (Some S) B sig = true <-> toLowerCase sig = hmac_hex S B)) /\
  (forall S B sig : string,
      S <> EmptyString ->
      toLowerCase sig <> hmac_hex S B -> verifyHmac (Some S) B sig = false) /\
  (forall S B B' : string,
      S <> EmptyString ->
      hmac_hex S B' <> hmac_hex S B -> verifyHmac (Some S) B' (hmac_hex S B) = false) /\
  (forall B sig : string,
      verifyHmac None B sig = false /\ verifyHmac (Some EmptyString) B sig = false).
Proof.
  assert (Hfalse : forall S B sig, S <> EmptyString ->
            toLowerCase sig <> hmac_hex S B -> verifyHmac (Some S) B sig = false).
  { intros S B sig HS Hne. apply not_true_is_false. intro Hv.
    now apply Hne, (verifyHmac_true_iff S B sig HS). }
  split; [|split; [|split; [|split]]].
  - intros S B HS. apply (verifyHmac_true_iff S B _ HS).
    unfold hmac_hex. apply toLowerCase_hex.
  - exact verifyHmac_true_iff.
  - exact Hfalse.
  - intros S B B' HS Hne. apply Hfalse; [exact HS|].
    unfold hmac_hex at 1. rewrite toLowerCase_hex. intro H. apply Hne. symmetry. exact H.
  - intros B sig. split; reflexivity.
Qed.

(** A digest to try the comparison on. *)
Lemma example_digest :
  hmac_hex "key" "The quick brown fox jumps over the lazy dog"
  = "f7bc83f430538424b13298e6aa6fb143ef4d59a14946175997479dbc2d1a3cd8".
Proof. vm_compute. reflexivity. Qed.

Lemma verifyHmac_accepts_exactly_the_digest_up_to_case_witness :
  verifyHmac (Some "key") "The quick brown fox jumps over the lazy dog"
             (hmac_hex "key" "The quick brown fox jumps over the lazy dog") = true
  /\ verifyHmac (Some "key") "The quick brown fox jumps over the lazy dog"
                "f7bc83f430538424b13298e6aa6fb143ef4d59a14946175997479dbc2d1a3cd9" = false.
Proof.
  destruct verifyHmac_accepts_exactly_the_digest_up_to_case as (Hown & _ & Hfalse & _).
  split.
  - apply Hown. discriminate.
  - apply Hfalse; [discriminate|]. rewrite example_digest. vm_compute. discriminate.
Defined.

(** C3 as stated fails: the digest of this body under this key begins with
    the letter f; with that one character turned into F the presented
    signature differs from the digest, yet it verifies. *)
Lemma verifyHmac_accepts_an_uppercase_signature :
  let S := "key" in
  let B := "The quick brown fox jumps over the lazy dog" in
  let sig := "F7bc83f430538424b13298e6aa6fb143ef4d59a14946175997479dbc2d1a3cd8" in
  hmac_hex S B = "f7bc83f430538424b13298e6aa6fb143ef4d59a14946175997479dbc2d1a3cd8"
  /\ sig <> hmac_hex S B
  /\ verifyHmac (Some S) B sig = true.
Proof.
  intros S B sig. subst S B sig. split; [exact example_digest|]. split.
  - rewrite example_digest. discriminate.
  - apply verifyHmac_true_iff; [discriminate|]. rewrite example_digest. reflexivity.
Qed.

(** ** The pipeline, stage by stage *)

Section Stages.

Context {num : Type} {N : JsNumber num}.
Variable rt : runtime num.
Variable w : world num.

Lemma handleTrade_after_validation (b : build) (r : request) (e : env) (payload : jsval num) :
  authenticated e r ->
  JSON_parse rt (text r) = Some payload ->
  valid_payload payload ->
  handleTrade_of b rt w r e
  = (resolved <- resolveTokenId rt w (prop payload "conditionId") (prop payload "marketId")
                                (prop payload "side") ;;
     match resolved with
     | Unresolved err => json (BError err) 400
     | Resolved tokenId priceFromBook =>
         submit_of b rt w e tokenId priceFromBook (prop payload "side") (prop payload "ask")
                   (prop payload "amountUsd") (slippage_of payload)
     end).
Proof.
  intros [Hpre Hsig] Hparse (Hnull & Hside & Hamt & Hask & Hyn).
  unfold presented in *.
  destruct b; cbn [handleTrade_of submit_of];
    unfold Worker.handleTrade, Part000.handleTrade;
    rewrite Hpre, Hsig, Hparse, Hnull, Hside, Hamt, Hask, Hyn; reflexivity.
Qed.

Lemma handleTrade_resolved (b : build) (r : request) (e : env) (payload : jsval num)
      (log : list (event num)) (tokenId priceFromBook : jsval num) :
  authenticated e r ->
  JSON_parse rt (text r) = Some payload ->
  valid_payload payload ->
  resolveTokenId rt w (prop payload "conditionId") (prop payload "marketId")
                 (prop payload "side") = (log, Ok (Resolved tokenId priceFromBook)) ->
  handleTrade_of b rt w r e
  = (let (log', out) :=
       submit_of b rt w e tokenId priceFromBook (prop payload "side") (prop payload "ask")
                 (prop payload "amountUsd") (slippage_of payload) in
     (log ++ log', out)).
Proof.
  intros Hauth Hparse Hvalid Hres.
  rewrite (handleTrade_after_validation b r e payload Hauth Hparse Hvalid), Hres.
  reflexivity.
Qed.

Section Submit.

Variables (e : env) (tokenId priceFromBook side_ ask amountUsd slippage : jsval num).
Variable signer : wallet.

Let p := order_price rt ask slippage.
Let shares := order_shares rt amountUsd p.
Let o := make_order w tokenId side_ p shares.

Hypothesis Hwallet : new_Wallet w (PRIVATE_KEY e) = Ok signer.
Hypothesis Hclient :
  new_ClobClient w (str_or (POLY_HOST e) "https://clob.polymarket.com") (chain_of rt e) signer
  = Ok tt.

Lemma submit_provisioning_throws (b : build) (x : thrown_value) :
  createOrDeriveApiKey w (toLowerCase (address signer)) = Throw x ->
  submit_of b rt w e tokenId priceFromBook side_ ask amountUsd slippage
  = (firstn 3 (submission_calls rt e signer o), Throw x).
Proof.
  intro Hkey.
  destruct b; cbn [submit_of]; unfold Worker.submit, Part000.submit;
    rewrite Hwallet; cbn; rewrite Hclient; cbn; rewrite Hkey; reflexivity.
Qed.

Hypothesis Hkey : createOrDeriveApiKey w (toLowerCase (address signer)) = Ok tt.

(** What [place] throws is caught, and [e.message] read: the answer is a
    502 when that read gives a string or [undefined], and the TypeError of
    the read leaves the function when the value is [null] or [undefined]. *)
Lemma submit_place_throws_any (b : build) (x : thrown_value) :
  place w o = Throw x ->
  submit_of b rt w e tokenId priceFromBook side_ ask amountUsd slippage
  = (submission_calls rt e signer o,
     match message_of x with
     | Ok m => Ok {| status := 502;
                     resp_body := BError ("place() failed: " ++ interpolate m) |}
     | Throw y => Throw y
     end).
Proof.
  intro Hplace. subst o shares p.
  destruct b; cbn [submit_of]; unfold Worker.submit, Part000.submit;
    rewrite Hwallet; cbn; rewrite Hclient; cbn; rewrite Hkey; cbn;
    rewrite Hplace; destruct x; reflexivity.
Qed.

Lemma submit_place_throws (b : build) (x : exn) :
  place w o = Throw x ->
  submit_of b rt w e tokenId priceFromBook side_ ask amountUsd slippage
  = (submission_calls rt e signer o,
     Ok {| status := 502; resp_body := BError ("place() failed: " ++ message x) |}).
Proof.
  intro Hplace. exact (submit_place_throws_any b x Hplace).
Qed.

Lemma submit_placed (b : build) (v : jsval num) :
  place w o = Ok (AckData v) ->
  submit_of b rt w e tokenId priceFromBook side_ ask amountUsd slippage
  = (submission_calls rt e signer o,
     Ok {| status := 200;
           resp_body := BTrade (AckData v) (make_fills p shares)
                               {| meta_tokenId := tokenId;
                                  meta_priceFromBook := priceFromBook |} |}).
Proof.
  intro Hplace. subst o shares p.
  destruct b; cbn [submit_of]; unfold Worker.submit, Part000.submit;
    rewrite Hwallet; cbn; rewrite Hclient; cbn; rewrite Hkey; cbn;
    rewrite Hplace; reflexivity.
Qed.

(** Where the two files part: the acknowledgement cannot be serialized. *)
Lemma submit_unserializable_worker (x : exn) :
  place w o = Ok (AckUnserializable x) ->
  Worker.submit rt w e tokenId priceFromBook side_ ask amountUsd slippage
  = (submission_calls rt e signer o,
     Ok {| status := 502; resp_body := BError ("place() failed: " ++ message x) |}).
Proof.
  intro Hplace. subst o shares p. unfold Worker.submit.
  rewrite Hwallet; cbn; rewrite Hclient; cbn; rewrite Hkey; cbn;
    rewrite Hplace; reflexivity.
Qed.

Lemma submit_unserializable_part000 (x : exn) :
  place w o = Ok (AckUnserializable x) ->
  Part000.submit rt w e tokenId priceFromBook side_ ask amountUsd slippage
  = (submission_calls rt e signer o, Throw x).
Proof.
  intro Hplace. subst o shares p. unfold Part000.submit.
  rewrite Hwallet; cbn; rewrite Hclient; cbn; rewrite Hkey; cbn;
    rewrite Hplace; reflexivity.
Qed.

End Submit.
End Stages.

(** ** Step 1: authentication *)

Section Authentication.

Context {num : Type} {N : JsNumber num}.
Variable rt : runtime num.
Variable w : world num.

Lemma handleTrade_unauthenticated (b : build) (r : request) (e : env) :
  startsWith (presented r) "sha256=" = false \/
  verifyHmac (HUD_SHARED_SECRET e) (text r) (slice 7 (presented r)) = false ->
  exists msg, handleTrade_of b rt w r e = unauthorized msg.
Proof.
  unfold presented. intros [Hpre|Hsig].
  - exists "Missing/invalid signature".
    destruct b; cbn [handleTrade_of]; unfold Worker.handleTrade, Part000.handleTrade;
      rewrite Hpre; reflexivity.
  - destruct (startsWith (str_or (X_HUD_Signature r) "") "sha256=") eqn:Hpre.
    + exists "Signature mismatch".
      destruct b; cbn [handleTrade_of]; unfold Worker.handleTrade, Part000.handleTrade;
        rewrite Hpre, Hsig; reflexivity.
    + exists "Missing/invalid signature".
      destruct b; cbn [handleTrade_of]; unfold Worker.handleTrade, Part000.handleTrade;
        rewrite Hpre; reflexivity.
Qed.

Lemma fetch_routes_trade (b : build) (r : request) (e : env) :
  pathname r = "/trade" -> method r = "POST" ->
  fetch_of b rt w r e
  = try_catch (handleTrade_of b rt w r e)
              (fun x => m <- lift (message_of x) ;; json (error_body m) 500).
Proof.
  intros Hp Hm. destruct b; cbn [fetch_of handleTrade_of]; unfold Worker.fetch, Part000.fetch;
    rewrite Hp, Hm; reflexivity.
Qed.

(** What the HUD signs is authenticated. *)
Lemma signed_request_authenticated (e : env) (secret body : string) :
  secret <> EmptyString ->
  HUD_SHARED_SECRET e = Some secret ->
  authenticated e (signed_request secret body).
Proof.
  intros Hs He. unfold authenticated, presented, signed_request.
  cbn [X_HUD_Signature text]. rewrite He.
  assert (Hpresented : str_or (Some ("sha256=" ++ hmac_hex secret body)%string) ""
                       = ("sha256=" ++ hmac_hex secret body)%string) by reflexivity.
  rewrite Hpresented. clear Hpresented.
  assert (Hprefix : forall h : string, startsWith ("sha256=" ++ h) "sha256=" = true).
  { intro h. unfold startsWith. cbn. now destruct h. }
  split; [apply Hprefix|].
  change (verifyHmac (Some secret) body (hmac_hex secret body) = true).
  apply (verifyHmac_true_iff secret body _ Hs). unfold hmac_hex. apply toLowerCase_hex.
Qed.

Lemma fetch_of_answer (b : build) (r : request) (e : env)
      (calls : list (event num)) (resp : response num) :
  pathname r = "/trade" -> method r = "POST" ->
  handleTrade_of b rt w r e = (calls, Ok resp) ->
  fetch_of b rt w r e = (calls, Ok resp).
Proof.
  intros Hp Hm Hrun. rewrite (fetch_routes_trade b r e Hp Hm), Hrun. reflexivity.
Qed.

(** What leaves [handleTrade] is caught by the router, and [e.message]
    read: a 500 when that read gives a string or [undefined]; on [null] and
    [undefined] the read is a TypeError inside the handler, and [fetch]
    itself rejects. *)
Lemma fetch_of_thrown (b : build) (r : request) (e : env)
      (calls : list (event num)) (x : thrown_value) :
  pathname r = "/trade" -> method r = "POST" ->
  handleTrade_of b rt w r e = (calls, Throw x) ->
  fetch_of b rt w r e
  = (calls,
     match message_of x with
     | Ok m => Ok {| status := 500; resp_body := error_body m |}
     | Throw y => Throw y
     end).
Proof.
  intros Hp Hm Hrun. rewrite (fetch_routes_trade b r e Hp Hm), Hrun.
  destruct x; cbn; now rewrite app_nil_r.
Qed.

Lemma fetch_of_exception (b : build) (r : request) (e : env)
      (calls : list (event num)) (x : exn) :
  pathname r = "/trade" -> method r = "POST" ->
  handleTrade_of b rt w r e = (calls, Throw x) ->
  fetch_of b rt w r e = (calls, Ok {| status := 500; resp_body := BError (message x) |}).
Proof.
  intros Hp Hm Hrun. exact (fetch_of_thrown b r e calls x Hp Hm Hrun).
Qed.

Lemma mismatch_fails (secret : option string) (B sig : string) :
  (forall S, secret = Some S -> toLowerCase sig <> hmac_hex S B) ->
  verifyHmac secret B sig = false.
Proof.
  intro H. destruct secret as [S|]; [|reflexivity].
  destruct (string_dec S EmptyString) as [->|HS]; [reflexivity|].
  apply not_true_is_false. intro Hv.
  apply (H S eq_refl). now apply (verifyHmac_true_iff S B sig HS).
Qed.

(** C4. A request to [handleTrade] whose [X-HUD-Signature] header is
    missing, or does not begin with [sha256=], or carries a signature that
    is not the HMAC of the raw body under the configured secret, is answered
    with status 401 and an empty call log: no lookup at the metadata
    service, no wallet, no exchange client, no credential provisioning, no
    order placement; and so it is through the router for a POST to
    [/trade], in both files. *)
Theorem bad_signature_is_rejected_before_any_call
        (b : build) (r : request) (e : env) :
  X_HUD_Signature r = None \/
  startsWith (presented r) "sha256=" = false \/
  (forall S, HUD_SHARED_SECRET e = Some S ->
             toLowerCase (slice 7 (presented r)) <> hmac_hex S (text r)) ->
  exists msg,
    handleTrade_of b rt w r e = ([], Ok {| status := 401; resp_body := BError msg |}) /\
    (pathname r = "/trade" -> method r = "POST" ->
     fetch_of b rt w r e = ([], Ok {| status := 401; resp_body := BError msg |})).
Proof.
  intro Hbad.
  destruct (handleTrade_unauthenticated b r e) as [msg Hmsg].
  { destruct Hbad as [Hnone|[Hpre|Hsig]].
    - left. unfold presented. now rewrite Hnone.
    - now left.
    - right. now apply mismatch_fails. }
  exists msg. split; [exact Hmsg|].
  intros Hp Hm. rewrite (fetch_routes_trade b r e Hp Hm), Hmsg. reflexivity.
Qed.

End Authentication.

Lemma bad_signature_is_rejected_before_any_call_witness :
  let e := {| HUD_SHARED_SECRET := Some "key"; POLY_HOST := None;
              CHAIN_ID := None; PRIVATE_KEY := Some "0x01" |} in
  let r := {| method := "POST"; pathname := "/trade";
              X_HUD_Signature :=
                Some "sha256=00bc83f430538424b13298e6aa6fb143ef4d59a14946175997479dbc2d1a3cd8";
              text := "The quick brown fox jumps over the lazy dog" |} in
  exists msg,
    handleTrade_of NodeCompat (example_runtime (num := float) [])
                   (example_world (Ok tt) (Ok example_ack)) r e
    = ([], Ok {| status := 401; resp_body := BError msg |}) /\
    (pathname r = "/trade" -> method r = "POST" ->
     fetch_of NodeCompat (example_runtime (num := float) [])
              (example_world (Ok tt) (Ok example_ack)) r e
     = ([], Ok {| status := 401; resp_body := BError msg |})).
Proof.
  intros e r.
  apply (bad_signature_is_rejected_before_any_call
           (example_runtime (num := float) []) (example_world (Ok tt) (Ok example_ack))
           NodeCompat r e).
  right. right. intros S HS. injection HS as <-.
  change (toLowerCase "00bc83f430538424b13298e6aa6fb143ef4d59a14946175997479dbc2d1a3cd8"
          <> hmac_hex "key" "The quick brown fox jumps over the lazy dog").
  rewrite example_digest. vm_compute. discriminate.
Defined.

(** ** Step 2: the payload *)

Section Validation.

Context {num : Type} {N : JsNumber num}.
Variable rt : runtime num.
Variable w : world num.

(** What the validator does on every payload that is not [null]: a
    falsy [side], [amountUsd] or [ask] is a 400 "Missing ...", a truthy
    [side] other than the two strings is a 400 "side must be ...", and in
    both cases nothing is called. *)
Lemma validation_rejects (b : build) (r : request) (e : env) (payload : jsval num) :
  authenticated e r ->
  JSON_parse rt (text r) = Some payload ->
  nullish payload = false ->
  (truthy (prop payload "side") = false \/
   truthy (prop payload "amountUsd") = false \/
   truthy (prop payload "ask") = false ->
   handleTrade_of b rt w r e = bad_request "Missing side/amountUsd/ask") /\
  (truthy (prop payload "side") = true ->
   truthy (prop payload "amountUsd") = true ->
   truthy (prop payload "ask") = true ->
   prop payload "side" <> VStr "YES" -> prop payload "side" <> VStr "NO" ->
   handleTrade_of b rt w r e = bad_request "side must be YES or NO").
Proof.
  intros [Hpre Hsig] Hparse Hnull. unfold presented in *. split.
  - intro Hfalsy.
    assert (Hc : negb (truthy (prop payload "side"))
                 || negb (truthy (prop payload "amountUsd"))
                 || negb (truthy (prop payload "ask")) = true).
    { destruct Hfalsy as [H|[H|H]]; rewrite H; cbn;
        rewrite ?orb_true_r; reflexivity. }
    destruct b; cbn [handleTrade_of]; unfold Worker.handleTrade, Part000.handleTrade;
      rewrite Hpre, Hsig, Hparse, Hnull, Hc; reflexivity.
  - intros Hs Ha Hk Hyes Hno.
    assert (Hyn : is_str (prop payload "side") "YES" || is_str (prop payload "side") "NO"
                  = false).
    { unfold is_str. destruct (prop payload "side") as [| | | |s| |]; try reflexivity.
      destruct (String.eqb_spec s "YES") as [->|_]; [now elim Hyes|].
      destruct (String.eqb_spec s "NO") as [->|_]; [now elim Hno|]. reflexivity. }
    destruct b; cbn [handleTrade_of]; unfold Worker.handleTrade, Part000.handleTrade;
      rewrite Hpre, Hsig, Hparse, Hnull, Hs, Ha, Hk, Hyn; reflexivity.
Qed.

(** A numeric 0 is falsy, and so is a missing member. *)
Lemma zero_and_absent_are_falsy (fs : list (string * jsval num)) (k : string) :
  truthy (VNum (num_of_Z 0)) = false /\
  (lookup k fs = VUndef -> truthy (prop (VObj fs) k) = false).
Proof.
  split; [exact num_zero_falsy|]. cbn. now intros ->.
Qed.

(** Destructuring [null]. *)
Lemma null_payload_throws (b : build) (r : request) (e : env) :
  authenticated e r ->
  JSON_parse rt (text r) = Some VNull ->
  handleTrade_of b rt w r e = ([], Throw (destructure_error rt VNull)).
Proof.
  intros [Hpre Hsig] Hparse. unfold presented in *.
  destruct b; cbn [handleTrade_of]; unfold Worker.handleTrade, Part000.handleTrade;
    rewrite Hpre, Hsig, Hparse; reflexivity.
Qed.

End Validation.

(** C7, where the code departs from it. The body [null] parses as JSON and
    has no [side], [amountUsd] or [ask]; destructuring it throws, so
    [handleTrade] ends in an exception and the router answers 500, not the
    400 "Missing side/amountUsd/ask", in both files. *)
Theorem null_payload_is_not_a_400 :
  let rt := example_runtime (num := float) [("null", VNull)] in
  let w := example_world (Ok tt) (Ok example_ack) in
  let r := signed_request "s3cret" "null" in
  let thrown := destructure_error rt VNull in
  authenticated example_env r /\
  JSON_parse rt (text r) = Some VNull /\
  message thrown = "Cannot destructure property 'conditionId' of 'payload' as it is null." /\
  handleTrade_of NodeCompat rt w r example_env = ([], Throw thrown) /\
  handleTrade_of Browser rt w r example_env = ([], Throw thrown) /\
  fetch_of NodeCompat rt w r example_env
  = ([], Ok {| status := 500; resp_body := BError (message thrown) |}) /\
  fetch_of Browser rt w r example_env
  = ([], Ok {| status := 500; resp_body := BError (message thrown) |}).
Proof.
  intros rt w r thrown.
  assert (Hauth : authenticated example_env r).
  { apply signed_request_authenticated; [discriminate|reflexivity]. }
  pose proof (fun b => null_payload_throws rt w b r example_env Hauth eq_refl) as Hthrow.
  split; [exact Hauth|]. split; [reflexivity|]. split; [reflexivity|].
  split; [exact (Hthrow NodeCompat)|]. split; [exact (Hthrow Browser)|]. split.
  - exact (fetch_of_exception rt w NodeCompat r example_env [] thrown eq_refl eq_refl
             (Hthrow NodeCompat)).
  - exact (fetch_of_exception rt w Browser r example_env [] thrown eq_refl eq_refl
             (Hthrow Browser)).
Qed.

(** ** Steps 4 and 5: submission *)

Section Submission.

Context {num : Type} {N : JsNumber num}.
Variable rt : runtime num.
Variable w : world num.

(** The resolver calls the metadata service at most once, and nothing else. *)
Lemma resolveTokenId_calls (conditionId marketId side_ : jsval num) :
  fst (resolveTokenId rt w conditionId marketId side_) = [] \/
  exists url, fst (resolveTokenId rt w conditionId marketId side_) = [CallFetch url].
Proof.
  unfold resolveTokenId.
  destruct (lookup_url rt conditionId marketId) as [url|]; [|left; reflexivity].
  right. exists url. cbn.
  destruct (gamma_fetch w url) as [r|x]; [|destruct x; reflexivity]. cbn.
  destruct (r_ok r); [|reflexivity]. cbn.
  destruct (r_json r) as [arr|x]; [|destruct x; reflexivity]. cbn.
  destruct arr as [| | | | |[|m l]|]; try reflexivity. cbn.
  destruct (select_token rt m side_) as [?|x]; [|destruct x]; reflexivity.
Qed.




(** The two files run the same steps unless an acknowledgement cannot be
    serialized. *)
Lemma submit_same_unless_unserializable
      (e : env) (tokenId priceFromBook side_ ask amountUsd slippage : jsval num) :
  (forall o x, place w o <> Ok (AckUnserializable x)) ->
  Worker.submit rt w e tokenId priceFromBook side_ ask amountUsd slippage
  = Part000.submit rt w e tokenId priceFromBook side_ ask amountUsd slippage.
Proof.
  intro Hser. unfold Worker.submit, Part000.submit.
  destruct (new_Wallet w (PRIVATE_KEY e)) as [signer|x]; [cbn|reflexivity].
  destruct (new_ClobClient w _ _ signer) as [[]|x]; [cbn|reflexivity].
  destruct (createOrDeriveApiKey w _) as [[]|x]; [cbn|reflexivity].
  match goal with |- context [place w ?o] => destruct (place w o) as [[v|x]|x] eqn:Hp end;
    try reflexivity.
  - now elim (Hser _ _ Hp).
  - destruct x; reflexivity.
Qed.

Lemma handleTrade_same_unless_unserializable (r : request) (e : env) :
  (forall o x, place w o <> Ok (AckUnserializable x)) ->
  Worker.handleTrade rt w r e = Part000.handleTrade rt w r e /\
  Worker.fetch rt w r e = Part000.fetch rt w r e.
Proof.
  intro Hser.
  assert (H : Worker.handleTrade rt w r e = Part000.handleTrade rt w r e).
  { unfold Worker.handleTrade, Part000.handleTrade.
    destruct (negb (startsWith _ _)); [reflexivity|].
    destruct (negb (verifyHmac _ _ _)); [reflexivity|].
    destruct (JSON_parse rt (text r)) as [payload|]; [|reflexivity].
    destruct (nullish payload); [reflexivity|].
    destruct (_ || _ || _); [reflexivity|].
    destruct (negb _); [reflexivity|].
    destruct (resolveTokenId rt w _ _ _) as [log [[tokenId pfb|err]|x]]; try reflexivity.
    cbn -[Worker.submit Part000.submit]. now rewrite submit_same_unless_unserializable. }
  split; [exact H|]. unfold Worker.fetch, Part000.fetch. now rewrite H.
Qed.

Section Reached.

(** A request that reaches submission. *)
Variables (b : build) (r : request) (e : env) (payload : jsval num).
Variables (log : list (event num)) (tokenId priceFromBook : jsval num) (signer : wallet).

Hypothesis Hauth : authenticated e r.
Hypothesis Hparse : JSON_parse rt (text r) = Some payload.
Hypothesis Hvalid : valid_payload payload.
Hypothesis Hres :
  resolveTokenId rt w (prop payload "conditionId") (prop payload "marketId")
                 (prop payload "side") = (log, Ok (Resolved tokenId priceFromBook)).
Hypothesis Hwallet : new_Wallet w (PRIVATE_KEY e) = Ok signer.
Hypothesis Hclient :
  new_ClobClient w (str_or (POLY_HOST e) "https://clob.polymarket.com") (chain_of rt e) signer
  = Ok tt.

Let p := order_price rt (prop payload "ask") (slippage_of payload).
Let o := make_order w tokenId (prop payload "side") p
                    (order_shares rt (prop payload "amountUsd") p).


Hypothesis Hkey : createOrDeriveApiKey w (toLowerCase (address signer)) = Ok tt.

Lemma handleTrade_place_throws_any (x : thrown_value) :
  place w o = Throw x ->
  handleTrade_of b rt w r e
  = (log ++ submission_calls rt e signer o,
     match message_of x with
     | Ok m => Ok {| status := 502;
                     resp_body := BError ("place() failed: " ++ interpolate m) |}
     | Throw y => Throw y
     end).
Proof.
  intro Hplace.
  rewrite (handleTrade_resolved rt w b r e payload log tokenId priceFromBook
             Hauth Hparse Hvalid Hres).
  now rewrite (submit_place_throws_any rt w e tokenId priceFromBook _ _ _ _ signer
                 Hwallet Hclient Hkey b x Hplace).
Qed.

Lemma handleTrade_place_throws (x : exn) :
  place w o = Throw x ->
  handleTrade_of b rt w r e
  = (log ++ submission_calls rt e signer o,
     Ok {| status := 502; resp_body := BError ("place() failed: " ++ message x) |}).
Proof.
  intro Hplace. exact (handleTrade_place_throws_any x Hplace).
Qed.

End Reached.

Section Unserializable.

Variables (r : request) (e : env) (payload : jsval num).
Variables (log : list (event num)) (tokenId priceFromBook : jsval num) (signer : wallet).
Variable x : exn.

Hypothesis Hauth : authenticated e r.
Hypothesis Hparse : JSON_parse rt (text r) = Some payload.
Hypothesis Hvalid : valid_payload payload.
Hypothesis Hres :
  resolveTokenId rt w (prop payload "conditionId") (prop payload "marketId")
                 (prop payload "side") = (log, Ok (Resolved tokenId priceFromBook)).
Hypothesis Hwallet : new_Wallet w (PRIVATE_KEY e) = Ok signer.
Hypothesis Hclient :
  new_ClobClient w (str_or (POLY_HOST e) "https://clob.polymarket.com") (chain_of rt e) signer
  = Ok tt.
Hypothesis Hkey : createOrDeriveApiKey w (toLowerCase (address signer)) = Ok tt.

Let p := order_price rt (prop payload "ask") (slippage_of payload).
Let o := make_order w tokenId (prop payload "side") p
                    (order_shares rt (prop payload "amountUsd") p).

Hypothesis Hplace : place w o = Ok (AckUnserializable x).

(** [src/worker.js]: the exception of [JSON.stringify] is caught as one of
    [place]. *)
Lemma handleTrade_unserializable_worker :
  handleTrade_of NodeCompat rt w r e
  = (log ++ submission_calls rt e signer o,
     Ok {| status := 502; resp_body := BError ("place() failed: " ++ message x) |}).
Proof.
  rewrite (handleTrade_resolved rt w NodeCompat r e payload log tokenId priceFromBook
             Hauth Hparse Hvalid Hres).
  cbn [submit_of].
  now rewrite (submit_unserializable_worker rt w e tokenId priceFromBook _ _ _ _ signer
                 Hwallet Hclient Hkey x Hplace).
Qed.

(** [src/unnamed/part_000]: it leaves [handleTrade]. *)
Lemma handleTrade_unserializable_part000 :
  handleTrade_of Browser rt w r e = (log ++ submission_calls rt e signer o, Throw x).
Proof.
  rewrite (handleTrade_resolved rt w Browser r e payload log tokenId priceFromBook
             Hauth Hparse Hvalid Hres).
  cbn [submit_of].
  now rewrite (submit_unserializable_part000 rt w e tokenId priceFromBook _ _ _ _ signer
                 Hwallet Hclient Hkey x Hplace).
Qed.

End Unserializable.


End Submission.

Lemma example_request_reaches_submission :
  authenticated example_env example_request /\
  JSON_parse example_runtime64 (text example_request)
  = Some (trade_payload 0.5%float 100%float [("slippage", VNum 0.02%float)]) /\
  valid_payload (trade_payload 0.5%float 100%float [("slippage", VNum 0.02%float)]).
Proof.
  split; [|split].
  - apply signed_request_authenticated; [discriminate|reflexivity].
  - reflexivity.
  - vm_compute. repeat split.
Qed.



(** C9, where the code departs from it. When [place] resolves to a value
    that [JSON.stringify] rejects, the [json(...)] of [src/worker.js] throws
    inside its [try] and is answered 502 as a failure of [place], while that
    of [src/unnamed/part_000] is outside and reaches the router: 500. Both
    made the same calls. *)
Theorem builds_differ_on_unserializable_acknowledgement :
  let bigint := Exn "Do not know how to serialize a BigInt" in
  let w := example_world (num := float) (Ok tt) (Ok (AckUnserializable bigint)) in
  fetch_of NodeCompat example_runtime64 w example_request example_env
  = (example_calls example_order,
     Ok {| status := 502;
           resp_body := BError "place() failed: Do not know how to serialize a BigInt" |}) /\
  fetch_of Browser example_runtime64 w example_request example_env
  = (example_calls example_order,
     Ok {| status := 500; resp_body := BError "Do not know how to serialize a BigInt" |}).
Proof.
  intros bigint w.
  destruct example_request_reaches_submission as (Hauth & Hparse & Hvalid).
  split.
  - exact (fetch_of_answer example_runtime64 w NodeCompat example_request example_env
             _ _ eq_refl eq_refl
             (handleTrade_unserializable_worker
                example_runtime64 w example_request example_env _ _ _ _
                {| address := "0xAbC1" |} bigint
                Hauth Hparse Hvalid eq_refl eq_refl eq_refl eq_refl eq_refl)).
  - exact (fetch_of_exception example_runtime64 w Browser example_request example_env
             _ bigint eq_refl eq_refl
             (handleTrade_unserializable_part000
                example_runtime64 w example_request example_env _ _ _ _
                {| address := "0xAbC1" |} bigint
                Hauth Hparse Hvalid eq_refl eq_refl eq_refl eq_refl eq_refl)).
Qed.

(** ** Step 4: price and size *)

Section Success.

Context {num : Type} {N : JsNumber num}.
Variable rt : runtime num.
Variable w : world num.

(** A run in which every stage succeeds. *)
Lemma handleTrade_success
      (b : build) (r : request) (e : env) (payload : jsval num)
      (log : list (event num)) (tokenId priceFromBook : jsval num) (signer : wallet)
      (v : jsval num) :
  authenticated e r ->
  JSON_parse rt (text r) = Some payload ->
  valid_payload payload ->
  resolveTokenId rt w (prop payload "conditionId") (prop payload "marketId")
                 (prop payload "side") = (log, Ok (Resolved tokenId priceFromBook)) ->
  new_Wallet w (PRIVATE_KEY e) = Ok signer ->
  new_ClobClient w (str_or (POLY_HOST e) "https://clob.polymarket.com") (chain_of rt e) signer
  = Ok tt ->
  createOrDeriveApiKey w (toLowerCase (address signer)) = Ok tt ->
  let p := order_price rt (prop payload "ask") (slippage_of payload) in
  let shares := order_shares rt (prop payload "amountUsd") p in
  let o := make_order w tokenId (prop payload "side") p shares in
  place w o = Ok (AckData v) ->
  handleTrade_of b rt w r e
  = (log ++ submission_calls rt e signer o,
     Ok {| status := 200;
           resp_body := BTrade (AckData v) (make_fills p shares)
                               {| meta_tokenId := tokenId;
                                  meta_priceFromBook := priceFromBook |} |}).
Proof.
  intros Hauth Hparse Hvalid Hres Hwallet Hclient Hkey p shares o Hplace.
  rewrite (handleTrade_resolved rt w b r e payload log tokenId priceFromBook
             Hauth Hparse Hvalid Hres).
  now rewrite (submit_placed rt w e tokenId priceFromBook _ _ _ _ signer
                 Hwallet Hclient Hkey b v Hplace).
Qed.

Lemma clamp01_not_finite (x : num) :
  num_isFinite x = false -> clamp01 rt (VNum x) = num_nan.
Proof.
  unfold clamp01. cbn [ToNumber]. now intros ->.
Qed.

End Success.

Lemma Qclt_asym (x y : Qc) : (x < y)%Qc -> (y < x)%Qc -> False.
Proof.
  intros Hxy Hyx. exact (Qclt_not_le _ _ Hxy (Qclt_le_weak _ _ Hyx)).
Qed.

(** [clamp01] in exact arithmetic. *)
Lemma clamp01_exact (rt : runtime xnum) (q : Qc) :
  exists q' : Qc,
    clamp01 rt (VNum (XFin q)) = XFin q' /\
    (0 <= q' /\ q' <= 1)%Qc /\
    ((0 <= q /\ q <= 1)%Qc -> q' = q) /\
    ((q < 0)%Qc -> q' = 0%Qc) /\
    ((1 < q)%Qc -> q' = 1%Qc).
Proof.
  assert (E : clamp01 rt (VNum (XFin q))
              = Exact.max (XFin 0%Qc) (Exact.min (XFin 1%Qc) (XFin q))) by reflexivity.
  rewrite E. clear E. unfold Exact.max, Exact.min, Exact.ltb. cbv beta iota.
  destruct (q ?= 1)%Qc eqn:H1; cbv beta iota.
  - apply Qceq_alt in H1. subst q. exists 1%Qc.
    repeat split; try reflexivity; try discriminate; intro H; exfalso; revert H; now vm_compute.
  - apply Qclt_alt in H1. destruct (0 ?= q)%Qc eqn:H0; cbv beta iota.
    + apply Qceq_alt in H0. subst q. exists 0%Qc.
      repeat split; try reflexivity; try discriminate; intro H; exfalso; revert H;
        now vm_compute.
    + apply Qclt_alt in H0. exists q. repeat split; try reflexivity.
      * now apply Qclt_le_weak.
      * now apply Qclt_le_weak.
      * intro H. exfalso. exact (Qclt_asym _ _ H0 H).
      * intro H. exfalso. exact (Qclt_asym _ _ H1 H).
    + apply Qcgt_alt in H0. exists 0%Qc. repeat split; try reflexivity; try discriminate.
      * intros [Hle _]. apply Qcle_antisym; [exact Hle|now apply Qclt_le_weak].
      * intro H. exfalso.
        exact (Qclt_asym _ _ H1 H).
  - apply Qcgt_alt in H1. exists 1%Qc.
    change ((0 ?= 1)%Qc) with Lt. cbv beta iota.
    repeat split; try reflexivity; try discriminate.
    + intros [_ Hle]. apply Qcle_antisym; [now apply Qclt_le_weak|exact Hle].
    + intro H. exfalso.
      assert (H01 : (0 < 1)%Qc) by reflexivity.
      exact (Qclt_asym _ _ H (Qclt_trans _ _ _ H01 H1)).
Qed.

(** [clamp01] on binary64, from the specification of the comparisons. *)

Module Binary64Facts.
Import Binary64.
Local Open Scope float_scope.

Lemma SFcompare_antisym (x y : spec_float) :
  SFcompare y x = option_map CompOpp (SFcompare x y).
Proof.
  destruct x as [[]|[]| |[] m e], y as [[]|[]| |[] m' e']; cbn; try reflexivity;
    rewrite (Z.compare_antisym e e'); destruct (e ?= e')%Z; cbn; try reflexivity;
    pose proof (Pos.compare_cont_antisym m m' Eq) as P; cbn in P;
    destruct (Pos.compare_cont Eq m m'), (Pos.compare_cont Eq m' m);
    cbn in *; congruence.
Qed.

Lemma cmp_antisym (a b : float) : cmp b a = option_map CompOpp (cmp a b).
Proof. apply SFcompare_antisym. Qed.

Lemma ltb_cmp (a b : float) :
  (a <? b) = match cmp a b with Some Lt => true | _ => false end.
Proof. apply ltb_spec. Qed.

Lemma leb_cmp (a b : float) :
  (a <=? b) = match cmp a b with Some (Lt | Eq) => true | _ => false end.
Proof. apply leb_spec. Qed.

Lemma eqb_cmp (a b : float) :
  (a =? b) = match cmp a b with Some Eq => true | _ => false end.
Proof. apply eqb_spec. Qed.

Lemma cmp_defined (a b : float) :
  is_nan a = false -> is_nan b = false -> cmp a b <> None.
Proof.
  unfold is_nan. rewrite !eqb_cmp. unfold cmp.
  destruct (Prim2SF a) as [[]|[]| |[] m e], (Prim2SF b) as [[]|[]| |[] m' e'];
    cbn; intros Ha Hb; try discriminate.
Qed.

Lemma cmp_refl (a : float) : is_nan a = false -> cmp a a = Some Eq.
Proof.
  unfold is_nan. rewrite eqb_cmp. destruct (cmp a a) as [[]|]; cbn; congruence.
Qed.

Lemma finite_not_nan (x : float) : is_finite x = true -> is_nan x = false.
Proof.
  unfold is_finite. destruct (is_nan x); [discriminate|reflexivity].
Qed.

(** Nothing is above 1 and below 0. *)
Lemma above_one_not_negative (x : float) :
  (1 <? x) = true -> (x <? 0) = true -> False.
Proof.
  rewrite !ltb_spec.
  change (Prim2SF 1) with (S754_finite false 4503599627370496 (-52)).
  change (Prim2SF 0) with (S754_zero false).
  destruct (Prim2SF x) as [[]|[]| |[] m e]; cbn; discriminate.
Qed.

(** Which of its three results [clamp01] takes on a number that is not NaN. *)
Lemma clamp_cases (x : float) :
  is_nan x = false ->
  let r := Binary64.max 0 (Binary64.min 1 x) in
  ((1 <? x) = true /\ r = 1) \/
  ((1 <? x) = false /\ (0 <? x) = true /\ r = x) \/
  ((1 <? x) = false /\ (0 <? x) = false /\ r = 0).
Proof.
  intros Hnan r. subst r. unfold Binary64.min.
  change (is_nan 1) with false. rewrite Hnan. cbn [orb].
  change (get_sign 1) with false. cbv iota.
  destruct (1 <? x) eqn:H1.
  - left. split; reflexivity.
  - right.
    assert (E : (if x <? 1 then x else x) = x) by (destruct (x <? 1); reflexivity).
    rewrite E. unfold Binary64.max. change (is_nan 0) with false. rewrite Hnan. cbn [orb].
    change (get_sign 0) with false. cbv iota.
    destruct (0 <? x) eqn:H0.
    + left. repeat split.
    + right. repeat split. destruct (x <? 0); reflexivity.
Qed.

(** On a finite [x] the result is within [0, 1]; it is 0 below 0, 1 above 1,
    and numerically [x] in between (the sign of a zero may change). *)
Lemma clamp01_binary64 (rt : runtime float) (x : float) :
  is_finite x = true ->
  let r := clamp01 rt (VNum x) in
  (0 <=? r) = true /\ (r <=? 1) = true /\
  ((0 <=? x) = true -> (x <=? 1) = true -> (r =? x) = true) /\
  ((x <? 0) = true -> r = 0) /\
  ((1 <? x) = true -> r = 1).
Proof.
  intros Hfin r. pose proof (finite_not_nan x Hfin) as Hnan.
  assert (E : r = Binary64.max 0 (Binary64.min 1 x)).
  { subst r. unfold clamp01. cbn [ToNumber].
    change (num_isFinite x) with (is_finite x). now rewrite Hfin. }
  rewrite E. clear E r.
  pose proof (cmp_antisym 1 x) as A1. pose proof (cmp_antisym 0 x) as A0.
  pose proof (cmp_defined 1 x eq_refl Hnan) as D1.
  pose proof (cmp_defined 0 x eq_refl Hnan) as D0.
  pose proof (cmp_refl x Hnan) as Rx.
  pose proof (above_one_not_negative x) as Habove.
  destruct (clamp_cases x Hnan) as [[H1 ->]|[(H1 & H0 & ->)|(H1 & H0 & ->)]].
  - repeat split; try reflexivity.
    + intros _. rewrite leb_cmp, A1. rewrite ltb_cmp in H1.
      destruct (cmp 1 x) as [[]|]; cbn; discriminate.
    + intro Hneg. now elim (Habove H1 Hneg).
  - rewrite ltb_cmp in H1, H0. rewrite !leb_cmp, eqb_cmp, Rx, A1, !ltb_cmp, A0.
    destruct (cmp 1 x) as [[]|]; try discriminate; try (now elim D1);
      destruct (cmp 0 x) as [[]|]; try discriminate; cbn; repeat split; discriminate.
  - rewrite ltb_cmp in H1, H0. rewrite !leb_cmp, eqb_cmp, A1, !ltb_cmp, A0.
    destruct (cmp 1 x) as [[]|]; try discriminate; try (now elim D1);
      destruct (cmp 0 x) as [[]|]; try discriminate; try (now elim D0);
      cbn; repeat split; try reflexivity; discriminate.
Qed.

End Binary64Facts.

(** C1. For a request that passes authentication, validation and
    resolution, and whose client is built and provisioned: the order handed
    to [place] has price [clamp01(Number(ask) * (1 + Number(slippage || 0)))]
    ([slippage] being the member, or 0.01 when it is absent) and size
    [amountUsd / price], whatever the price is (nothing guards a zero or NaN
    price); and when [place] acknowledges, the answer is 200 with fills
    [{ sharesBought: shares, avgPrice: price, costUsd: shares * price }], in
    both files. [clamp01] is NaN on every number that is not finite; on a
    finite one its result is within [0, 1], in binary64 and in exact
    arithmetic. For ask 0.5, slippage 0.02 and 100 USD the price is 0.51 and
    the size 100/0.51, in binary64 and in exact arithmetic. *)
Theorem order_price_and_fills :
  (forall (num : Type) (N : JsNumber num) (rt : runtime num) (w : world num)
          (b : build) (r : request) (e : env) (payload : jsval num)
          (log : list (event num)) (tokenId priceFromBook : jsval num)
          (signer : wallet) (v : jsval num),
      authenticated e r ->
      JSON_parse rt (text r) = Some payload ->
      valid_payload payload ->
      resolveTokenId rt w (prop payload "conditionId") (prop payload "marketId")
                     (prop payload "side") = (log, Ok (Resolved tokenId priceFromBook)) ->
      new_Wallet w (PRIVATE_KEY e) = Ok signer ->
      new_ClobClient w (str_or (POLY_HOST e) "https://clob.polymarket.com")
                     (chain_of rt e) signer = Ok tt ->
      createOrDeriveApiKey w (toLowerCase (address signer)) = Ok tt ->
      let ask := ToNumber rt (prop payload "ask") in
      let slippage := ToNumber rt (js_or (slippage_of payload) (VNum (num_of_Z 0))) in
      let price := clamp01 rt (VNum (num_mul ask (num_add (num_of_Z 1) slippage))) in
      let shares := num_div (ToNumber rt (prop payload "amountUsd")) price in
      let o := {| token_id := tokenId;
                  price := price;
                  size := shares;
                  side := if is_str (prop payload "side") "YES" then 0 else 1;
                  client_order_id := "hud-" ++ decimal (Date_now w);
                  time_in_force := "IOC";
                  post_only := false |} in
      place w o = Ok (AckData v) ->
      handleTrade_of b rt w r e
      = (log ++ submission_calls rt e signer o,
         Ok {| status := 200;
               resp_body :=
                 BTrade (AckData v)
                        {| sharesBought := shares;
                           avgPrice := price;
                           costUsd := num_mul shares price |}
                        {| meta_tokenId := tokenId;
                           meta_priceFromBook := priceFromBook |} |})) /\
  (forall (num : Type) (N : JsNumber num) (rt : runtime num) (x : num),
      num_isFinite x = false -> clamp01 rt (VNum x) = num_nan) /\
  (forall (rt : runtime float) (x : float),
      is_finite x = true ->
      (0 <=? clamp01 rt (VNum x))%float = true /\
      (clamp01 rt (VNum x) <=? 1)%float = true /\
      ((0 <=? x)%float = true -> (x <=? 1)%float = true ->
       (clamp01 rt (VNum x) =? x)%float = true)) /\
  (forall (rt : runtime xnum) (q : Qc),
      exists q' : Qc,
        clamp01 rt (VNum (XFin q)) = XFin q' /\
        (0 <= q' /\ q' <= 1)%Qc /\
        ((0 <= q /\ q <= 1)%Qc -> q' = q)) /\
  (forall rt : runtime float,
      order_price rt (VNum 0.5%float) (VNum 0.02%float) = 0.51%float /\
      order_shares rt (VNum 100%float) 0.51%float = (100 / 0.51)%float) /\
  (forall rt : runtime xnum,
      order_price rt (VNum (Exact.frac 1 2)) (VNum (Exact.frac 2 100)) = Exact.frac 51 100 /\
      order_shares rt (VNum (Exact.of_Z 100)) (Exact.frac 51 100) = Exact.frac 10000 51).
Proof.
  split; [|split; [|split; [|split; [|split]]]].
  - intros num N rt w b r e payload log tokenId priceFromBook signer v
           Hauth Hparse Hvalid Hres Hwallet Hclient Hkey ask slippage price shares o Hplace.
    exact (handleTrade_success rt w b r e payload log tokenId priceFromBook signer v
             Hauth Hparse Hvalid Hres Hwallet Hclient Hkey Hplace).
  - intros num N rt x. apply clamp01_not_finite.
  - intros rt x Hfin.
    destruct (Binary64Facts.clamp01_binary64 rt x Hfin) as (H0 & H1 & Hin & _).
    repeat split; assumption.
  - intros rt q. destruct (clamp01_exact rt q) as (q' & Hq & Hb & Hin & _).
    exists q'. repeat split; try assumption; apply Hb.
  - intro rt. split; reflexivity.
  - intro rt. split; reflexivity.
Qed.

Lemma order_price_and_fills_witness :
  handleTrade_of NodeCompat example_runtime64 (example_world (Ok tt) (Ok example_ack))
                 example_request example_env
  = (example_calls example_order,
     Ok {| status := 200;
           resp_body :=
             BTrade example_ack
                    {| sharesBought := (100 / 0.51)%float;
                       avgPrice := 0.51%float;
                       costUsd := (100 / 0.51 * 0.51)%float |}
                    {| meta_tokenId := VStr "A"; meta_priceFromBook := VUndef |} |}).
Proof.
  destruct example_request_reaches_submission as (Hauth & Hparse & Hvalid).
  exact (proj1 order_price_and_fills float float_JsNumber example_runtime64
               (example_world (Ok tt) (Ok example_ack)) NodeCompat
               example_request example_env _
               [CallFetch "https://gamma-api.polymarket.com/markets?limit=50&active=true&slug=btc-up"]
               (VStr "A") VUndef {| address := "0xAbC1" |}
               (VObj [("orderID", VStr "0x1")])
               Hauth Hparse Hvalid eq_refl eq_refl eq_refl eq_refl eq_refl).
Defined.

(** ** The slippage default *)

Section Slippage.

Context {num : Type} {N : JsNumber num}.
Variable rt : runtime num.

Lemma order_price_absent_slippage (payload : jsval num) :
  prop payload "slippage" = VUndef ->
  order_price rt (prop payload "ask") (slippage_of payload)
  = clamp01 rt (VNum (num_mul (ToNumber rt (prop payload "ask"))
                              (num_add (num_of_Z 1) num_0_01))).
Proof.
  intro Habsent. unfold order_price, slippage_of, js_or. rewrite Habsent.
  cbn [truthy]. now rewrite num_0_01_truthy.
Qed.

Lemma order_price_falsy_slippage (payload : jsval num) :
  prop payload "slippage" <> VUndef ->
  truthy (prop payload "slippage") = false ->
  order_price rt (prop payload "ask") (slippage_of payload)
  = clamp01 rt (VNum (num_mul (ToNumber rt (prop payload "ask"))
                              (num_add (num_of_Z 1) (num_of_Z 0)))).
Proof.
  intros Hpresent Hfalsy. unfold order_price, slippage_of, js_or.
  destruct (prop payload "slippage") eqn:Hs; try (now elim Hpresent);
    rewrite Hfalsy; reflexivity.
Qed.

End Slippage.

(** C6, as amended. In an otherwise valid and successful request, when the
    [slippage] member is absent the price is [clamp01(ask * (1 + 0.01))], and
    [1 + 0.01] is [1.01] in binary64 and in exact arithmetic; when the member
    is present and falsy (0, null, false, the empty string) the price is
    [clamp01(ask * (1 + 0))]: the default is not taken. *)
Theorem slippage_defaults_only_when_absent :
  (forall (num : Type) (N : JsNumber num) (rt : runtime num) (w : world num)
          (b : build) (r : request) (e : env) (payload : jsval num)
          (log : list (event num)) (tokenId priceFromBook : jsval num)
          (signer : wallet) (v : jsval num),
      authenticated e r ->
      JSON_parse rt (text r) = Some payload ->
      valid_payload payload ->
      resolveTokenId rt w (prop payload "conditionId") (prop payload "marketId")
                     (prop payload "side") = (log, Ok (Resolved tokenId priceFromBook)) ->
      new_Wallet w (PRIVATE_KEY e) = Ok signer ->
      new_ClobClient w (str_or (POLY_HOST e) "https://clob.polymarket.com")
                     (chain_of rt e) signer = Ok tt ->
      createOrDeriveApiKey w (toLowerCase (address signer)) = Ok tt ->
      place w (make_order w tokenId (prop payload "side")
                 (order_price rt (prop payload "ask") (slippage_of payload))
                 (order_shares rt (prop payload "amountUsd")
                    (order_price rt (prop payload "ask") (slippage_of payload))))
      = Ok (AckData v) ->
      let ask := ToNumber rt (prop payload "ask") in
      exists calls f m,
        handleTrade_of b rt w r e
        = (calls, Ok {| status := 200; resp_body := BTrade (AckData v) f m |}) /\
        (prop payload "slippage" = VUndef ->
         avgPrice f = clamp01 rt (VNum (num_mul ask (num_add (num_of_Z 1) num_0_01)))) /\
        (prop payload "slippage" <> VUndef ->
         truthy (prop payload "slippage") = false ->
         avgPrice f = clamp01 rt (VNum (num_mul ask (num_add (num_of_Z 1) (num_of_Z 0)))))) /\
  (1 + 0.01 = 1.01)%float /\
  Exact.add (Exact.of_Z 1) (Exact.frac 1 100) = Exact.frac 101 100.
Proof.
  split; [|split; reflexivity].
  intros num N rt w b r e payload log tokenId priceFromBook signer v
         Hauth Hparse Hvalid Hres Hwallet Hclient Hkey Hplace ask.
  eexists. eexists. eexists. split.
  - exact (handleTrade_success rt w b r e payload log tokenId priceFromBook signer v
             Hauth Hparse Hvalid Hres Hwallet Hclient Hkey Hplace).
  - cbn [avgPrice make_fills]. split.
    + apply order_price_absent_slippage.
    + apply order_price_falsy_slippage.
Qed.

Lemma slippage_defaults_only_when_absent_witness :
  exists calls f m,
    handleTrade_of NodeCompat slippage_runtime64 (example_world (Ok tt) (Ok example_ack))
                   (signed_request "s3cret" (trade_text EmptyString)) example_env
    = (calls, Ok {| status := 200; resp_body := BTrade example_ack f m |}) /\
    avgPrice f = 0.505%float.
Proof.
  assert (Hreach :
            authenticated example_env (signed_request "s3cret" (trade_text EmptyString)) /\
            valid_payload (trade_payload 0.5%float 100%float [])).
  { split; [apply signed_request_authenticated; [discriminate|reflexivity]|].
    vm_compute. repeat split. }
  destruct Hreach as [Hauth Hvalid].
  destruct (proj1 slippage_defaults_only_when_absent float float_JsNumber
                  slippage_runtime64 (example_world (Ok tt) (Ok example_ack)) NodeCompat
                  (signed_request "s3cret" (trade_text EmptyString)) example_env
                  (trade_payload 0.5%float 100%float [])
                  [CallFetch "https://gamma-api.polymarket.com/markets?limit=50&active=true&slug=btc-up"]
                  (VStr "A") VUndef {| address := "0xAbC1" |}
                  (VObj [("orderID", VStr "0x1")])
                  Hauth eq_refl Hvalid eq_refl eq_refl eq_refl eq_refl eq_refl)
    as (calls & f & m & Hrun & Habsent & _).
  exists calls, f, m. split; [exact Hrun|]. exact (Habsent eq_refl).
Defined.

(** C6 as stated fails: with [slippage: 0], and with [slippage: null], the
    price for ask 0.5 is 0.5, where the default 0.01 would give 0.505. *)
Lemma falsy_slippage_is_not_defaulted :
  let w := example_world (num := float) (Ok tt) (Ok example_ack) in
  let run_of (t : string) :=
    handleTrade_of NodeCompat slippage_runtime64 w (signed_request "s3cret" t) example_env in
  let at_half :=
    Ok {| status := 200;
          resp_body :=
            BTrade example_ack
                   {| sharesBought := 200%float; avgPrice := 0.5%float; costUsd := 100%float |}
                   {| meta_tokenId := VStr "A"; meta_priceFromBook := VUndef |} |} in
  exists calls,
    run_of (trade_text (with_slippage "0")) = (calls, at_half) /\
    run_of (trade_text (with_slippage "null")) = (calls, at_half) /\
    clamp01 slippage_runtime64 (VNum (0.5 * 1.01)%float) = 0.505%float /\
    (0.5 =? 0.505)%float = false.
Proof.
  intros w run_of at_half. subst run_of. cbv beta.
  assert (Hauth : forall t, authenticated example_env (signed_request "s3cret" t)).
  { intro t. apply signed_request_authenticated; [discriminate|reflexivity]. }
  assert (Hvalid0 : valid_payload (trade_payload 0.5%float 100%float
                                                 [("slippage", VNum 0%float)])).
  { vm_compute. repeat split. }
  assert (Hvalid1 : valid_payload (trade_payload 0.5%float 100%float
                                                 [("slippage", VNull (num := float))])).
  { vm_compute. repeat split. }
  eexists. split; [|split; [|split; reflexivity]].
  - exact (handleTrade_success slippage_runtime64 w NodeCompat
             (signed_request "s3cret" (trade_text (with_slippage "0"))) example_env
             (trade_payload 0.5%float 100%float [("slippage", VNum 0%float)]) _ _ _
             {| address := "0xAbC1" |} _
             (Hauth _) eq_refl Hvalid0 eq_refl eq_refl eq_refl eq_refl eq_refl).
  - exact (handleTrade_success slippage_runtime64 w NodeCompat
             (signed_request "s3cret" (trade_text (with_slippage "null"))) example_env
             (trade_payload 0.5%float 100%float [("slippage", VNull)]) _ _ _
             {| address := "0xAbC1" |} _
             (Hauth _) eq_refl Hvalid1 eq_refl eq_refl eq_refl eq_refl eq_refl).
Qed.

(** ** The reported cost *)

Lemma qzero_false (q : Qc) : q <> 0%Qc -> Exact.qzero q = false.
Proof.
  intro Hq. unfold Exact.qzero. destruct (Z.eqb_spec (Qnum (this q)) 0) as [Hz|]; [|reflexivity].
  elim Hq. apply Qc_is_canon. unfold Qeq. rewrite Hz. reflexivity.
Qed.

(** In exact arithmetic, dividing by a finite price other than 0 and
    multiplying back gives the amount, whatever the amount. *)
Lemma exact_div_mul (a : xnum) (q : Qc) :
  q <> 0%Qc -> Exact.mul (Exact.div a (XFin q)) (XFin q) = a.
Proof.
  intro Hq. pose proof (qzero_false q Hq) as Hz.
  destruct a as [|s|p]; cbn [Exact.div Exact.mul].
  - reflexivity.
  - rewrite Hz. f_equal. now destruct s, (Exact.qneg q).
  - rewrite Hz. cbn [Exact.mul]. f_equal.
    rewrite Qcmult_comm. now apply Qcmult_div_r.
Qed.

(** C10. In exact arithmetic, in both files, a successful trade whose price
    is finite and not 0 reports as [costUsd] the number requested as
    [amountUsd]: the amount itself when it is a number. *)
Theorem cost_is_the_requested_amount
        (rt : runtime xnum) (w : world xnum)
        (b : build) (r : request) (e : env) (payload : jsval xnum)
        (log : list (event xnum)) (tokenId priceFromBook : jsval xnum)
        (signer : wallet) (v : jsval xnum) (q : Qc) :
  authenticated e r ->
  JSON_parse rt (text r) = Some payload ->
  valid_payload payload ->
  resolveTokenId rt w (prop payload "conditionId") (prop payload "marketId")
                 (prop payload "side") = (log, Ok (Resolved tokenId priceFromBook)) ->
  new_Wallet w (PRIVATE_KEY e) = Ok signer ->
  new_ClobClient w (str_or (POLY_HOST e) "https://clob.polymarket.com")
                 (chain_of rt e) signer = Ok tt ->
  createOrDeriveApiKey w (toLowerCase (address signer)) = Ok tt ->
  place w (make_order w tokenId (prop payload "side")
             (order_price rt (prop payload "ask") (slippage_of payload))
             (order_shares rt (prop payload "amountUsd")
                (order_price rt (prop payload "ask") (slippage_of payload))))
  = Ok (AckData v) ->
  order_price rt (prop payload "ask") (slippage_of payload) = XFin q ->
  q <> 0%Qc ->
  exists calls f m,
    handleTrade_of b rt w r e
    = (calls, Ok {| status := 200; resp_body := BTrade (AckData v) f m |}) /\
    avgPrice f = XFin q /\
    costUsd f = ToNumber rt (prop payload "amountUsd") /\
    (forall a, prop payload "amountUsd" = VNum a -> costUsd f = a).
Proof.
  intros Hauth Hparse Hvalid Hres Hwallet Hclient Hkey Hplace Hprice Hq.
  eexists. eexists. eexists. split.
  - exact (handleTrade_success rt w b r e payload log tokenId priceFromBook signer v
             Hauth Hparse Hvalid Hres Hwallet Hclient Hkey Hplace).
  - cbn [avgPrice costUsd make_fills]. unfold order_shares. rewrite Hprice.
    change (num_mul (num_div (ToNumber rt (prop payload "amountUsd")) (XFin q)) (XFin q))
      with (Exact.mul (Exact.div (ToNumber rt (prop payload "amountUsd")) (XFin q)) (XFin q)).
    rewrite (exact_div_mul _ q Hq). split; [reflexivity|]. split; [reflexivity|].
    intros a ->. reflexivity.
Qed.

Lemma cost_is_the_requested_amount_witness :
  exists calls f m,
    handleTrade_of Browser example_runtime_exact (example_world (Ok tt) (Ok example_ack))
                   example_request example_env
    = (calls, Ok {| status := 200; resp_body := BTrade example_ack f m |}) /\
    avgPrice f = Exact.frac 51 100 /\
    costUsd f = Exact.of_Z 100.
Proof.
  assert (Hreach :
            authenticated example_env example_request /\
            valid_payload (trade_payload (Exact.frac 1 2) (Exact.of_Z 100)
                                         [("slippage", VNum (Exact.frac 2 100))])).
  { split; [apply signed_request_authenticated; [discriminate|reflexivity]|].
    vm_compute. repeat split. }
  destruct Hreach as [Hauth Hvalid].
  assert (Hq : Q2Qc (51 # 100) <> 0%Qc) by discriminate.
  destruct (cost_is_the_requested_amount
              example_runtime_exact (example_world (Ok tt) (Ok example_ack)) Browser
              example_request example_env
              (trade_payload (Exact.frac 1 2) (Exact.of_Z 100)
                             [("slippage", VNum (Exact.frac 2 100))])
              [CallFetch "https://gamma-api.polymarket.com/markets?limit=50&active=true&slug=btc-up"]
              (VStr "A") VUndef {| address := "0xAbC1" |}
              (VObj [("orderID", VStr "0x1")]) (Q2Qc (51 # 100))
              Hauth eq_refl Hvalid eq_refl eq_refl eq_refl eq_refl eq_refl eq_refl Hq)
    as (calls & f & m & Hrun & Hprice & Hcost & _).
  exists calls, f, m. split; [exact Hrun|]. split; [exact Hprice|exact Hcost].
Defined.

(** The qualification matters: in binary64 the same formula can miss the
    amount by a rounding error (ask 0.3, slippage 0.02, 100 USD). *)
Example binary64_cost_can_round (rt : runtime float) :
  let p := order_price rt (VNum 0.3%float) (VNum 0.02%float) in
  (costUsd (make_fills p (order_shares rt (VNum 100%float) p)) =? 100)%float = false.
Proof. reflexivity. Qed.

(** ** Step 3: the outcome slot *)

(** *** What [trim] strips *)





Section Resolver.

Context {num : Type} {N : JsNumber num}.
Variable rt : runtime num.
Variable w : world num.





(** Outside the data model: a truthy [outcomes] that is not a list has no
    [findIndex]; the TypeError is caught and reported. *)
Lemma resolveTokenId_outcomes_not_a_list
      (conditionId marketId side_ : jsval num) (url : string) (r : http_response num)
      (m : jsval num) (rest : list (jsval num)) :
  lookup_url rt conditionId marketId = Some url ->
  gamma_fetch w url = Ok r ->
  r_ok r = true ->
  r_json r = Ok (VArr (m :: rest)) ->
  truthy (prop m "outcomes") = true ->
  isArray (prop m "outcomes") = false ->
  resolveTokenId rt w conditionId marketId side_
  = ([CallFetch url],
     Ok (Unresolved "resolveTokenId error: (m.outcomes || []).findIndex is not a function")).
Proof.
  intros Hurl Hfetch Hok Hjson Htruthy Hlist.
  unfold resolveTokenId. rewrite Hurl. cbn. rewrite Hfetch. cbn. rewrite Hok. cbn.
  rewrite Hjson. cbn.
  assert (Hsel : select_token rt m side_
                 = Throw (Exn "(m.outcomes || []).findIndex is not a function")).
  { unfold select_token, member, outcome_index, js_or.
    destruct m; try discriminate. rewrite Htruthy.
    destruct (prop (VObj fields) "outcomes"); try discriminate; reflexivity. }
  rewrite Hsel. reflexivity.
Qed.

End Resolver.



(** The testable properties of the specification on the resolver, and the
    trimming, the case and the two field names. *)
Example resolver_examples :
  resolve_example (market_of ["Yes"; "No"] "token_id") "YES" = Ok (Resolved (VStr "A") VUndef) /\
  resolve_example (market_of ["Yes"; "No"] "token_id") "NO" = Ok (Resolved (VStr "B") VUndef) /\
  resolve_example (market_of ["Over"; "Under"] "token_id") "YES" = Ok (Resolved (VStr "A") VUndef) /\
  resolve_example (market_of ["Over"; "Under"] "token_id") "NO" = Ok (Resolved (VStr "B") VUndef) /\
  resolve_example (market_of ["Down"; " Up "] "tokenId") "YES" = Ok (Resolved (VStr "B") VUndef) /\
  resolve_example (market_of ["no"; "yes"] "tokenId") "YES" = Ok (Resolved (VStr "A") VUndef) /\
  resolve_example (market_of ["Yes"; "No"] "id") "YES" = Ok (Unresolved "Missing tokenId").
Proof.
  vm_compute. repeat split.
Qed.

(** * Further properties of the code *)

(** ** The shape of every run *)

Section Runs.

Context {num : Type} {N : JsNumber num}.
Variable rt : runtime num.
Variable w : world num.

(** What the resolver itself throws is an Error. *)
Lemma select_token_throws (m side_ : jsval num) (x : thrown_value) :
  select_token rt m side_ = Throw x -> exists err : exn, x = Error err.
Proof.
  unfold select_token, member, outcome_index.
  destruct m; try (intro H; injection H as <-; eexists; reflexivity);
    cbn [prop];
    match goal with
    | |- context [js_or ?a ?b] => destruct (js_or a b)
    end;
    try (intro H; injection H as <-; eexists; reflexivity);
    match goal with
    | |- context [negb (truthy ?t)] => destruct (negb (truthy t))
    end; discriminate.
Qed.

(** Every run of the resolver: without an identifier it answers at once;
    otherwise it calls the metadata service once, and answers, unless the
    lookup or the reading of its body throws [null] or [undefined]: then
    [e.message] in its [catch] is a TypeError, which it throws. *)
Lemma resolveTokenId_runs (conditionId marketId side_ : jsval num) :
  let run := resolveTokenId rt w conditionId marketId side_ in
  (lookup_url rt conditionId marketId = None /\
   run = ([], Ok (Unresolved "No conditionId/marketId to resolve tokenId"))) \/
  (exists url,
      lookup_url rt conditionId marketId = Some url /\
      ((exists out, run = ([CallFetch url], Ok out)) \/
       (exists x,
           (gamma_fetch w url = Throw x \/
            exists r, gamma_fetch w url = Ok r /\ r_ok r = true /\ r_json r = Throw x) /\
           (x = ThrownNull \/ x = ThrownUndefined) /\
           exists y : exn, message_of x = Throw y /\ run = ([CallFetch url], Throw y)))).
Proof.
  intro run. subst run. unfold resolveTokenId.
  destruct (lookup_url rt conditionId marketId) as [url|]; [|left; split; reflexivity].
  right. exists url. split; [reflexivity|]. cbn.
  destruct (gamma_fetch w url) as [r|x] eqn:Hfetch; cbn.
  - destruct (r_ok r) eqn:Hok; cbn; [|left; eexists; reflexivity].
    destruct (r_json r) as [arr|x] eqn:Hjson; cbn.
    + destruct arr as [| | | | |[|m l]|]; cbn; try (left; eexists; reflexivity).
      destruct (select_token rt m side_) as [out|x] eqn:Hsel; cbn;
        [left; eexists; reflexivity|].
      destruct (select_token_throws m side_ x Hsel) as [err ->].
      left. eexists. reflexivity.
    + destruct x as [err| | |]; cbn;
        try (left; eexists; reflexivity);
        right; eexists; (split; [right; exists r; repeat split; eassumption|]);
        (split; [tauto|]); eexists; split; reflexivity.
  - destruct x as [err| | |]; cbn;
      try (left; eexists; reflexivity);
      right; eexists; (split; [left; reflexivity|]);
      (split; [tauto|]); eexists; split; reflexivity.
Qed.

(** Every run of [handleTrade] is one of these. *)
Lemma handleTrade_cases (b : build) (r : request) (e : env) :
  let run := handleTrade_of b rt w r e in
  (exists msg, run = ([], Ok {| status := 401; resp_body := BError msg |})) \/
  (authenticated e r /\ JSON_parse rt (text r) = None /\
   run = ([], Ok {| status := 400; resp_body := BError "Bad JSON" |})) \/
  (exists payload,
      authenticated e r /\ JSON_parse rt (text r) = Some payload /\
      ((nullish payload = true /\ run = ([], Throw (destructure_error rt payload))) \/
       (nullish payload = false /\
        exists msg, run = ([], Ok {| status := 400; resp_body := BError msg |})) \/
       (valid_payload payload /\
        exists log,
          (exists err,
              resolveTokenId rt w (prop payload "conditionId") (prop payload "marketId")
                             (prop payload "side") = (log, Ok (Unresolved err)) /\
              run = (log, Ok {| status := 400; resp_body := BError err |})) \/
          (exists tokenId priceFromBook,
              resolveTokenId rt w (prop payload "conditionId") (prop payload "marketId")
                             (prop payload "side")
              = (log, Ok (Resolved tokenId priceFromBook)) /\
              run = (let (log', out) :=
                       submit_of b rt w e tokenId priceFromBook (prop payload "side")
                                 (prop payload "ask") (prop payload "amountUsd")
                                 (slippage_of payload) in
                     (log ++ log', out))) \/
          (exists x,
              resolveTokenId rt w (prop payload "conditionId") (prop payload "marketId")
                             (prop payload "side") = (log, Throw x) /\
              run = (log, Throw x))))).
Proof.
  intro run. subst run.
  destruct (startsWith (presented r) "sha256=") eqn:Hpre;
    [|left; apply handleTrade_unauthenticated; now left].
  destruct (verifyHmac (HUD_SHARED_SECRET e) (text r) (slice 7 (presented r))) eqn:Hsig;
    [|left; apply handleTrade_unauthenticated; now right].
  assert (Hauth : authenticated e r) by (split; assumption).
  right. unfold presented in Hpre, Hsig.
  destruct (JSON_parse rt (text r)) as [payload|] eqn:Hparse.
  - right. exists payload. split; [exact Hauth|]. split; [reflexivity|].
    destruct (nullish payload) eqn:Hnull.
    + left. split; [reflexivity|].
      destruct b; cbn [handleTrade_of]; unfold Worker.handleTrade, Part000.handleTrade;
        rewrite Hpre, Hsig, Hparse, Hnull; reflexivity.
    + right.
      destruct (truthy (prop payload "side")) eqn:Hs;
        [destruct (truthy (prop payload "amountUsd")) eqn:Ha;
         [destruct (truthy (prop payload "ask")) eqn:Hk;
          [destruct (is_str (prop payload "side") "YES" || is_str (prop payload "side") "NO")
                    eqn:Hyn|]|]|].
      * right.
        assert (Hvalid : valid_payload payload) by (repeat split; assumption).
        split; [exact Hvalid|].
        rewrite (handleTrade_after_validation rt w b r e payload Hauth Hparse Hvalid).
        destruct (resolveTokenId rt w (prop payload "conditionId")
                    (prop payload "marketId") (prop payload "side"))
          as [log [[tokenId priceFromBook|err]|x]].
        -- exists log. right. left. exists tokenId, priceFromBook. split; reflexivity.
        -- exists log. left. exists err. split; [reflexivity|]. cbn. now rewrite app_nil_r.
        -- exists log. right. right. exists x. split; reflexivity.
      * left. split; [reflexivity|]. exists "side must be YES or NO".
        destruct b; cbn [handleTrade_of]; unfold Worker.handleTrade, Part000.handleTrade;
          rewrite Hpre, Hsig, Hparse, Hnull, Hs, Ha, Hk, Hyn; reflexivity.
      * left. split; [reflexivity|]. exists "Missing side/amountUsd/ask".
        destruct b; cbn [handleTrade_of]; unfold Worker.handleTrade, Part000.handleTrade;
          rewrite Hpre, Hsig, Hparse, Hnull, Hs, Ha, Hk; reflexivity.
      * left. split; [reflexivity|]. exists "Missing side/amountUsd/ask".
        destruct b; cbn [handleTrade_of]; unfold Worker.handleTrade, Part000.handleTrade;
          rewrite Hpre, Hsig, Hparse, Hnull, Hs, Ha; reflexivity.
      * left. split; [reflexivity|]. exists "Missing side/amountUsd/ask".
        destruct b; cbn [handleTrade_of]; unfold Worker.handleTrade, Part000.handleTrade;
          rewrite Hpre, Hsig, Hparse, Hnull, Hs; reflexivity.
  - left. split; [exact Hauth|]. split; [reflexivity|].
    destruct b; cbn [handleTrade_of]; unfold Worker.handleTrade, Part000.handleTrade;
      rewrite Hpre, Hsig, Hparse; reflexivity.
Qed.

End Runs.

Section SubmitRuns.

Context {num : Type} {N : JsNumber num}.
Variable rt : runtime num.
Variable w : world num.

Variables (b : build) (e : env).
Variables (tokenId priceFromBook side_ ask amountUsd slippage : jsval num).

Let p := order_price rt ask slippage.
Let shares := order_shares rt amountUsd p.
Let o := make_order w tokenId side_ p shares.
Let run := submit_of b rt w e tokenId priceFromBook side_ ask amountUsd slippage.

(** Every run of the submission steps is one of these. *)
Lemma submit_cases :
  (exists x, new_Wallet w (PRIVATE_KEY e) = Throw x /\
             run = ([CallWallet (PRIVATE_KEY e)], Throw x)) \/
  (exists signer,
      new_Wallet w (PRIVATE_KEY e) = Ok signer /\
      let calls := submission_calls rt e signer o in
      let host := str_or (POLY_HOST e) "https://clob.polymarket.com" in
      (exists x, new_ClobClient w host (chain_of rt e) signer = Throw x /\
                 run = (firstn 2 calls, Throw x)) \/
      (new_ClobClient w host (chain_of rt e) signer = Ok tt /\
       ((exists x, createOrDeriveApiKey w (toLowerCase (address signer)) = Throw x /\
                   run = (firstn 3 calls, Throw x)) \/
        (createOrDeriveApiKey w (toLowerCase (address signer)) = Ok tt /\
         ((exists x, place w o = Throw x /\
                     run = (calls,
                            match message_of x with
                            | Ok m =>
                                Ok {| status := 502;
                                      resp_body :=
                                        BError ("place() failed: " ++ interpolate m) |}
                            | Throw y => Throw y
                            end)) \/
          (exists v, place w o = Ok (AckData v) /\
                     run = (calls,
                            Ok {| status := 200;
                                  resp_body :=
                                    BTrade (AckData v) (make_fills p shares)
                                           {| meta_tokenId := tokenId;
                                              meta_priceFromBook := priceFromBook |} |})) \/
          (exists x, place w o = Ok (AckUnserializable x) /\
                     run = (calls,
                            match b with
                            | NodeCompat =>
                                Ok {| status := 502;
                                      resp_body :=
                                        BError ("place() failed: " ++ message x) |}
                            | Browser => Throw x
                            end))))))).
Proof.
  destruct (new_Wallet w (PRIVATE_KEY e)) as [signer|x] eqn:Hwallet.
  2:{ left. exists x. split; [reflexivity|]. subst run.
      destruct b; cbn [submit_of]; unfold Worker.submit, Part000.submit;
        rewrite Hwallet; reflexivity. }
  right. exists signer. split; [reflexivity|]. intros calls host.
  destruct (new_ClobClient w host (chain_of rt e) signer) as [[]|x] eqn:Hclient.
  2:{ left. exists x. split; [reflexivity|]. subst run host.
      destruct b; cbn [submit_of]; unfold Worker.submit, Part000.submit;
        rewrite Hwallet; cbn; rewrite Hclient; reflexivity. }
  right. split; [reflexivity|].
  destruct (createOrDeriveApiKey w (toLowerCase (address signer))) as [[]|x] eqn:Hkey.
  2:{ left. exists x. split; [reflexivity|]. subst run calls o shares p.
      exact (submit_provisioning_throws rt w e tokenId priceFromBook side_ ask amountUsd
               slippage signer Hwallet Hclient b x Hkey). }
  right. split; [reflexivity|].
  destruct (place w o) as [[v|x]|x] eqn:Hplace.
  - right. left. exists v. split; [reflexivity|]. subst run calls o shares p.
    exact (submit_placed rt w e tokenId priceFromBook side_ ask amountUsd slippage signer
             Hwallet Hclient Hkey b v Hplace).
  - right. right. exists x. split; [reflexivity|]. subst run calls o shares p.
    destruct b; cbn [submit_of].
    + exact (submit_unserializable_worker rt w e tokenId priceFromBook side_ ask amountUsd
               slippage signer Hwallet Hclient Hkey x Hplace).
    + exact (submit_unserializable_part000 rt w e tokenId priceFromBook side_ ask amountUsd
               slippage signer Hwallet Hclient Hkey x Hplace).
  - left. exists x. split; [reflexivity|]. subst run calls o shares p.
    exact (submit_place_throws_any rt w e tokenId priceFromBook side_ ask amountUsd slippage
             signer Hwallet Hclient Hkey b x Hplace).
Qed.

(** The calls of the submission steps are made in order, none skipped. *)
Lemma submit_call_ranks :
  map call_rank (fst run) = seq 1 (List.length (fst run)).
Proof.
  destruct submit_cases as [(x & _ & ->)|(signer & _ & H)]; [reflexivity|].
  cbv zeta in H.
  destruct H as [(x & _ & ->)|(_ & [(x & _ & ->)|(_ & [(x & _ & ->)|[(v & _ & ->)|(x & _ & ->)]])])];
    reflexivity.
Qed.


End SubmitRuns.

Section WholeRuns.

Context {num : Type} {N : JsNumber num}.
Variable rt : runtime num.
Variable w : world num.

(** A resolved token was fetched. *)
Lemma resolved_after_one_fetch
      (conditionId marketId side_ : jsval num) (log : list (event num))
      (tokenId priceFromBook : jsval num) :
  resolveTokenId rt w conditionId marketId side_
  = (log, Ok (Resolved tokenId priceFromBook)) ->
  exists url, lookup_url rt conditionId marketId = Some url /\ log = [CallFetch url].
Proof.
  intro Hres.
  destruct (resolveTokenId_runs rt w conditionId marketId side_)
    as [(_ & H)|(url & Hurl & [(out & H)|(x & _ & _ & y & _ & H)])];
    cbv zeta in H; rewrite Hres in H; try discriminate.
  injection H as -> _. exists url. split; [exact Hurl|reflexivity].
Qed.

(** Whatever its outcome, the resolver made at most one call. *)
Lemma resolver_log (conditionId marketId side_ : jsval num)
      (log : list (event num)) (out : res resolved) :
  resolveTokenId rt w conditionId marketId side_ = (log, out) ->
  log = [] \/ exists url, log = [CallFetch url].
Proof.
  intro Hres.
  destruct (resolveTokenId_calls rt w conditionId marketId side_) as [H|[url H]];
    rewrite Hres in H; cbn [fst] in H; [now left|right; now exists url].
Qed.

Lemma unresolved_after_at_most_one_fetch
      (conditionId marketId side_ : jsval num) (log : list (event num)) (err : string) :
  resolveTokenId rt w conditionId marketId side_ = (log, Ok (Unresolved err)) ->
  log = [] \/ exists url, log = [CallFetch url].
Proof.
  apply resolver_log.
Qed.


(** The lists of calls that are in order. *)
Lemma call_ranks_shape (l : list (event num)) :
  map call_rank l = seq 0 (List.length l) ->
  l = [] \/
  (exists url, l = [CallFetch url]) \/
  (exists url key, l = [CallFetch url; CallWallet key]) \/
  (exists url key host chain signer,
      l = [CallFetch url; CallWallet key; CallClobClient host chain signer]) \/
  (exists url key host chain signer addr,
      l = [CallFetch url; CallWallet key; CallClobClient host chain signer;
           CallCreateOrDeriveApiKey addr]) \/
  (exists url key host chain signer addr o,
      l = [CallFetch url; CallWallet key; CallClobClient host chain signer;
           CallCreateOrDeriveApiKey addr; CallPlace o]).
Proof.
  intro H.
  destruct l as [|ev l]; [now left|]. right.
  destruct ev; cbn in H; try discriminate. injection H as H.
  destruct l as [|ev l]; [left; eexists; reflexivity|]. right.
  destruct ev; cbn in H; try discriminate. injection H as H.
  destruct l as [|ev l]; [left; eexists; eexists; reflexivity|]. right.
  destruct ev; cbn in H; try discriminate. injection H as H.
  destruct l as [|ev l]; [left; repeat eexists|]. right.
  destruct ev; cbn in H; try discriminate. injection H as H.
  destruct l as [|ev l]; [left; repeat eexists|]. right.
  destruct ev; cbn in H; try discriminate. injection H as H.
  destruct l as [|ev l]; [repeat eexists|].
  destruct ev; cbn in H; discriminate.
Qed.



(** X2. Whatever happens, a run of [handleTrade] makes its calls in one
    order, each at most once and none skipped: the metadata lookup, the
    wallet, the exchange client, the credential, the placement. So an order
    is placed at most once, and only after the market was looked up and the
    credential provisioned. *)
Theorem calls_in_fixed_order (b : build) (r : request) (e : env) :
  let calls := fst (handleTrade_of b rt w r e) in
  map call_rank calls = seq 0 (List.length calls) /\
  (places calls <= 1)%nat /\
  (forall o, In (CallPlace o) calls ->
             exists url key host chain signer addr,
               calls = [CallFetch url; CallWallet key; CallClobClient host chain signer;
                        CallCreateOrDeriveApiKey addr; CallPlace o]).
Proof.
  intro calls.
  assert (Hrank : map call_rank calls = seq 0 (List.length calls)).
  { subst calls.
    destruct (handleTrade_cases rt w b r e)
      as [(msg & ->)|[(_ & _ & ->)|(payload & _ & _ &
           [(_ & ->)|[(_ & msg & ->)|(_ & log &
             [(err & Hres & ->)|[(tokenId & pfb & Hres & ->)|(x & Hres & ->)]])]])]];
      try reflexivity.
    - destruct (resolver_log _ _ _ _ _ Hres) as [->|[url ->]]; reflexivity.
    - destruct (resolved_after_one_fetch _ _ _ _ _ _ Hres) as (url & _ & ->).
      pose proof (submit_call_ranks rt w b e tokenId pfb (prop payload "side")
                    (prop payload "ask") (prop payload "amountUsd") (slippage_of payload))
        as Hsub.
      destruct (submit_of b rt w e tokenId pfb (prop payload "side") (prop payload "ask")
                          (prop payload "amountUsd") (slippage_of payload)) as [log' out].
      cbn [fst] in *. cbn. now rewrite Hsub.
    - destruct (resolver_log _ _ _ _ _ Hres) as [->|[url ->]]; reflexivity. }
  split; [exact Hrank|].
  destruct (call_ranks_shape calls Hrank)
    as [->|[(url & ->)|[(url & key & ->)|[(url & key & host & chain & signer & ->)|
        [(url & key & host & chain & signer & addr & ->)|
         (url & key & host & chain & signer & addr & o & ->)]]]]];
    (split; [cbn; lia|]); intros o' Hin; cbn in Hin;
    repeat (destruct Hin as [Hin|Hin]; [try discriminate|]); try contradiction.
  injection Hin as ->. repeat eexists.
Qed.

End WholeRuns.

(** The worked request, run to its end. *)
Lemma example_run_succeeds (b : build) :
  handleTrade_of b example_runtime64 (example_world (Ok tt) (Ok example_ack))
                 example_request example_env
  = (example_calls example_order,
     Ok {| status := 200;
           resp_body :=
             BTrade example_ack
                    {| sharesBought := (100 / 0.51)%float;
                       avgPrice := 0.51%float;
                       costUsd := (100 / 0.51 * 0.51)%float |}
                    {| meta_tokenId := VStr "A"; meta_priceFromBook := VUndef |} |}).
Proof.
  destruct example_request_reaches_submission as (Hauth & Hparse & Hvalid).
  exact (handleTrade_success example_runtime64 (example_world (Ok tt) (Ok example_ack)) b
           example_request example_env _ [CallFetch example_url]
           (VStr "A") VUndef {| address := "0xAbC1" |} (VObj [("orderID", VStr "0x1")])
           Hauth Hparse Hvalid eq_refl eq_refl eq_refl eq_refl eq_refl).
Qed.

Section Outcomes.

Context {num : Type} {N : JsNumber num}.
Variable rt : runtime num.
Variable w : world num.

Lemma is_str_eq (v : jsval num) (s : string) : is_str v s = true -> v = VStr s.
Proof.
  destruct v; cbn; try discriminate. intro H. apply String.eqb_eq in H. now subst.
Qed.

Lemma valid_side (payload : jsval num) :
  valid_payload payload ->
  (prop payload "side" = VStr "YES" /\ is_str (prop payload "side") "YES" = true) \/
  (prop payload "side" = VStr "NO" /\ is_str (prop payload "side") "YES" = false).
Proof.
  intros (_ & _ & _ & _ & Hyn).
  destruct (is_str (prop payload "side") "YES") eqn:Hyes.
  - left. split; [now apply is_str_eq|reflexivity].
  - right. split; [|reflexivity]. cbn in Hyn. now apply is_str_eq.
Qed.

(** X3. A 200 is never sent on trust: when [handleTrade] answers 200, the
    request was authenticated and valid, the market was looked up, and the
    exchange acknowledged exactly the order built from the payload; the body
    carries that acknowledgement and the fills of that order. *)
Theorem success_means_acknowledged_order
        (b : build) (r : request) (e : env)
        (calls : list (event num)) (resp : response num) :
  handleTrade_of b rt w r e = (calls, Ok resp) ->
  status resp = 200 ->
  exists payload tokenId priceFromBook url signer v,
    authenticated e r /\
    JSON_parse rt (text r) = Some payload /\
    valid_payload payload /\
    let p := order_price rt (prop payload "ask") (slippage_of payload) in
    let shares := order_shares rt (prop payload "amountUsd") p in
    let o := make_order w tokenId (prop payload "side") p shares in
    calls = CallFetch url :: submission_calls rt e signer o /\
    place w o = Ok (AckData v) /\
    resp_body resp = BTrade (AckData v) (make_fills p shares)
                            {| meta_tokenId := tokenId;
                               meta_priceFromBook := priceFromBook |}.
Proof.
  intros Hrun H200.
  destruct (handleTrade_cases rt w b r e)
    as [(msg & H)|[(_ & _ & H)|(payload & Hauth & Hparse &
         [(_ & H)|[(_ & msg & H)|(Hvalid & log &
           [(err & _ & H)|[(tokenId & pfb & Hres & H)|(x & _ & H)]])]])]];
    rewrite Hrun in H; try (injection H as -> ->; discriminate); try discriminate.
  destruct (resolved_after_one_fetch rt w _ _ _ _ _ _ Hres) as (url & _ & ->).
  destruct (submit_cases rt w b e tokenId pfb (prop payload "side") (prop payload "ask")
                         (prop payload "amountUsd") (slippage_of payload))
    as [(x & _ & Hs)|(signer & _ & Hs)]; [rewrite Hs in H; discriminate|].
  cbv zeta in Hs.
  destruct Hs as [(x & _ & Hs)|(_ & [(x & _ & Hs)|(_ &
                   [(x & _ & Hs)|[(v & Hplace & Hs)|(x & _ & Hs)]])])];
    rewrite Hs in H; try discriminate.
  - destruct (message_of x); [|discriminate]. injection H as -> ->. discriminate.
  - injection H as -> ->.
    exists payload, tokenId, pfb, url, signer, v.
    split; [exact Hauth|]. split; [exact Hparse|]. split; [exact Hvalid|]. cbv zeta.
    split; [reflexivity|]. split; [exact Hplace|reflexivity].
  - destruct b; [|discriminate]. injection H as -> ->. discriminate.
Qed.

(** X4. Every order that reaches the exchange, whatever becomes of it, is
    immediate-or-cancel and not post-only, is named [hud-] and the clock,
    has side code 0 for YES and 1 for NO, and has the price and size
    computed from the payload. *)
Theorem every_order_sent_is_ioc
        (b : build) (r : request) (e : env) (o : order num) :
  In (CallPlace o) (fst (handleTrade_of b rt w r e)) ->
  time_in_force o = "IOC" /\
  post_only o = false /\
  client_order_id o = ("hud-" ++ decimal (Date_now w))%string /\
  exists payload,
    JSON_parse rt (text r) = Some payload /\
    ((prop payload "side" = VStr "YES" /\ side o = 0) \/
     (prop payload "side" = VStr "NO" /\ side o = 1)) /\
    price o = order_price rt (prop payload "ask") (slippage_of payload) /\
    size o = order_shares rt (prop payload "amountUsd") (price o).
Proof.
  intro Hin.
  destruct (handleTrade_cases rt w b r e)
    as [(msg & H)|[(_ & _ & H)|(payload & Hauth & Hparse &
         [(_ & H)|[(_ & msg & H)|(Hvalid & log &
           [(err & Hres & H)|[(tokenId & pfb & Hres & H)|(x & Hres & H)]])]])]];
    rewrite H in Hin; cbn [fst] in Hin; try contradiction.
  - destruct (resolver_log rt w _ _ _ _ _ Hres) as [->|[url ->]];
      cbn in Hin; [contradiction|]. destruct Hin as [Hin|[]]. discriminate.
  - destruct (resolved_after_one_fetch rt w _ _ _ _ _ _ Hres) as (url & _ & ->).
    assert (Ho : o = make_order w tokenId (prop payload "side")
                   (order_price rt (prop payload "ask") (slippage_of payload))
                   (order_shares rt (prop payload "amountUsd")
                      (order_price rt (prop payload "ask") (slippage_of payload)))).
    { destruct (submit_cases rt w b e tokenId pfb (prop payload "side") (prop payload "ask")
                             (prop payload "amountUsd") (slippage_of payload))
        as [(x & _ & Hs)|(signer & _ & Hs)].
      - rewrite Hs in Hin. cbn in Hin. destruct Hin as [Hin|[Hin|[]]]; discriminate.
      - cbv zeta in Hs.
        destruct Hs as [(x & _ & Hs)|(_ & [(x & _ & Hs)|(_ &
                         [(x & _ & Hs)|[(v & _ & Hs)|(x & _ & Hs)]])])];
          rewrite Hs in Hin; cbn in Hin;
          repeat (destruct Hin as [Hin|Hin]; [try discriminate|]); try contradiction;
          now injection Hin as <-. }
    subst o. cbn [time_in_force post_only client_order_id side price size make_order].
    repeat split. exists payload. split; [exact Hparse|]. split; [|split; reflexivity].
    destruct (valid_side payload Hvalid) as [[Hs ->]|[Hs ->]]; [left|right]; now split.
  - destruct (resolver_log rt w _ _ _ _ _ Hres) as [->|[url ->]];
      cbn in Hin; [contradiction|]. destruct Hin as [Hin|[]]. discriminate.
Qed.

(** X5. Without a shared secret, unset or empty, every request to
    [handleTrade] is answered 401 and nothing is called, however it is
    signed. *)
Theorem without_a_secret_everything_is_401 (b : build) (r : request) (e : env) :
  HUD_SHARED_SECRET e = None \/ HUD_SHARED_SECRET e = Some EmptyString ->
  exists msg,
    handleTrade_of b rt w r e = ([], Ok {| status := 401; resp_body := BError msg |}).
Proof.
  intro Hsecret. apply handleTrade_unauthenticated. right.
  destruct Hsecret as [-> | ->]; reflexivity.
Qed.

(** X6. An authenticated body that [JSON.parse] rejects is answered 400
    "Bad JSON", and nothing is called. *)
Theorem unparsable_body_is_a_400 (b : build) (r : request) (e : env) :
  authenticated e r ->
  JSON_parse rt (text r) = None ->
  handleTrade_of b rt w r e = ([], Ok {| status := 400; resp_body := BError "Bad JSON" |}).
Proof.
  intros [Hpre Hsig] Hparse. unfold presented in *.
  destruct b; cbn [handleTrade_of]; unfold Worker.handleTrade, Part000.handleTrade;
    rewrite Hpre, Hsig, Hparse; reflexivity.
Qed.

(** X7. When the resolver fails, [handleTrade] answers 400 with the
    resolver's error, and the calls of the run are those of the resolver: at
    most one lookup, no wallet, no exchange client, no order. *)
Theorem unresolved_market_is_a_400
        (b : build) (r : request) (e : env) (payload : jsval num)
        (log : list (event num)) (err : string) :
  authenticated e r ->
  JSON_parse rt (text r) = Some payload ->
  valid_payload payload ->
  resolveTokenId rt w (prop payload "conditionId") (prop payload "marketId")
                 (prop payload "side") = (log, Ok (Unresolved err)) ->
  handleTrade_of b rt w r e = (log, Ok {| status := 400; resp_body := BError err |}) /\
  (log = [] \/ exists url, log = [CallFetch url]).
Proof.
  intros Hauth Hparse Hvalid Hres. split.
  - rewrite (handleTrade_after_validation rt w b r e payload Hauth Hparse Hvalid), Hres.
    cbn. now rewrite app_nil_r.
  - exact (unresolved_after_at_most_one_fetch rt w _ _ _ _ _ Hres).
Qed.

(** X8. When the wallet or the exchange client cannot be built, what the
    constructor throws leaves [handleTrade] as it is, and nothing is
    provisioned or placed. The router reads its [message]: 500 with the
    message when an Error was thrown, 500 with no [error] when the value has
    no [message], and when [null] or [undefined] was thrown the read is a
    TypeError in the router's own [catch], so that [fetch] rejects. *)
Theorem unbuildable_client_leaves_handleTrade
        (b : build) (r : request) (e : env) (payload : jsval num)
        (log : list (event num)) (tokenId priceFromBook : jsval num) (x : thrown_value) :
  authenticated e r ->
  JSON_parse rt (text r) = Some payload ->
  valid_payload payload ->
  resolveTokenId rt w (prop payload "conditionId") (prop payload "marketId")
                 (prop payload "side") = (log, Ok (Resolved tokenId priceFromBook)) ->
  pathname r = "/trade" -> method r = "POST" ->
  let host := str_or (POLY_HOST e) "https://clob.polymarket.com" in
  let outcome : res (response num) :=
    match x with
    | Error err => Ok {| status := 500; resp_body := BError (message err) |}
    | ThrownOther => Ok {| status := 500; resp_body := BErrorUndefined |}
    | ThrownNull => Throw (Exn "Cannot read properties of null (reading 'message')")
    | ThrownUndefined =>
        Throw (Exn "Cannot read properties of undefined (reading 'message')")
    end in
  (new_Wallet w (PRIVATE_KEY e) = Throw x ->
   handleTrade_of b rt w r e = (log ++ [CallWallet (PRIVATE_KEY e)], Throw x) /\
   fetch_of b rt w r e = (log ++ [CallWallet (PRIVATE_KEY e)], outcome)) /\
  (forall signer,
      new_Wallet w (PRIVATE_KEY e) = Ok signer ->
      new_ClobClient w host (chain_of rt e) signer = Throw x ->
      handleTrade_of b rt w r e
      = (log ++ [CallWallet (PRIVATE_KEY e); CallClobClient host (chain_of rt e) signer],
         Throw x) /\
      fetch_of b rt w r e
      = (log ++ [CallWallet (PRIVATE_KEY e); CallClobClient host (chain_of rt e) signer],
         outcome)).
Proof.
  intros Hauth Hparse Hvalid Hres Hp Hm host outcome.
  pose proof (handleTrade_resolved rt w b r e payload log tokenId priceFromBook
                Hauth Hparse Hvalid Hres) as Hrun.
  assert (Hout : match message_of x with
                 | Ok m => Ok {| status := 500; resp_body := error_body m |}
                 | Throw y => Throw y
                 end = outcome) by (subst outcome; destruct x; reflexivity).
  split.
  - intro Hwallet.
    assert (H : handleTrade_of b rt w r e = (log ++ [CallWallet (PRIVATE_KEY e)], Throw x)).
    { rewrite Hrun.
      destruct b; cbn [submit_of]; unfold Worker.submit, Part000.submit;
        rewrite Hwallet; reflexivity. }
    split; [exact H|]. rewrite <- Hout. exact (fetch_of_thrown rt w b r e _ x Hp Hm H).
  - intros signer Hwallet Hclient.
    assert (H : handleTrade_of b rt w r e
                = (log ++ [CallWallet (PRIVATE_KEY e);
                           CallClobClient host (chain_of rt e) signer], Throw x)).
    { rewrite Hrun. subst host.
      destruct b; cbn [submit_of]; unfold Worker.submit, Part000.submit;
        rewrite Hwallet; cbn; rewrite Hclient; reflexivity. }
    split; [exact H|]. rewrite <- Hout. exact (fetch_of_thrown rt w b r e _ x Hp Hm H).
Qed.

End Outcomes.

Lemma success_means_acknowledged_order_witness :
  exists payload,
    authenticated example_env example_request /\
    JSON_parse example_runtime64 (text example_request) = Some payload /\
    valid_payload payload /\
    prop payload "side" = VStr "YES".
Proof.
  destruct example_request_reaches_submission as (_ & Hparse & _).
  destruct (success_means_acknowledged_order
              example_runtime64 (example_world (Ok tt) (Ok example_ack)) NodeCompat
              example_request example_env _ _ (example_run_succeeds NodeCompat) eq_refl)
    as (payload & tokenId & pfb & url & signer & v & Hauth & Hparse' & Hvalid & _).
  exists payload. split; [exact Hauth|]. split; [exact Hparse'|]. split; [exact Hvalid|].
  rewrite Hparse in Hparse'. injection Hparse' as <-. reflexivity.
Defined.

Lemma every_order_sent_is_ioc_witness :
  time_in_force example_order = "IOC" /\
  post_only example_order = false /\
  client_order_id example_order = "hud-1700000000000".
Proof.
  assert (Hin : In (CallPlace example_order)
                   (fst (handleTrade_of NodeCompat example_runtime64
                           (example_world (Ok tt) (Ok example_ack))
                           example_request example_env))).
  { rewrite (example_run_succeeds NodeCompat). cbn. tauto. }
  destruct (every_order_sent_is_ioc example_runtime64 (example_world (Ok tt) (Ok example_ack))
              NodeCompat example_request example_env example_order Hin)
    as (Hioc & Hpost & Hid & _).
  split; [exact Hioc|]. split; [exact Hpost|exact Hid].
Defined.

Lemma without_a_secret_everything_is_401_witness :
  exists msg,
    handleTrade_of Browser example_runtime64 (example_world (Ok tt) (Ok example_ack))
                   example_request
                   {| HUD_SHARED_SECRET := None; POLY_HOST := None;
                      CHAIN_ID := None; PRIVATE_KEY := Some "0x01" |}
    = ([], Ok {| status := 401; resp_body := BError msg |}).
Proof.
  apply (without_a_secret_everything_is_401
           example_runtime64 (example_world (Ok tt) (Ok example_ack)) Browser
           example_request
           {| HUD_SHARED_SECRET := None; POLY_HOST := None;
              CHAIN_ID := None; PRIVATE_KEY := Some "0x01" |}).
  left. reflexivity.
Defined.

Lemma unparsable_body_is_a_400_witness :
  handleTrade_of NodeCompat example_runtime64 (example_world (Ok tt) (Ok example_ack))
                 (signed_request "s3cret" "{") example_env
  = ([], Ok {| status := 400; resp_body := BError "Bad JSON" |}).
Proof.
  apply (unparsable_body_is_a_400
           example_runtime64 (example_world (Ok tt) (Ok example_ack)) NodeCompat
           (signed_request "s3cret" "{") example_env).
  - apply signed_request_authenticated; [discriminate|reflexivity].
  - reflexivity.
Defined.

Lemma unresolved_market_is_a_400_witness :
  handleTrade_of NodeCompat example_runtime64 no_market_world example_request example_env
  = ([CallFetch example_url], Ok {| status := 400; resp_body := BError "No market found" |}).
Proof.
  destruct example_request_reaches_submission as (Hauth & Hparse & Hvalid).
  exact (proj1 (unresolved_market_is_a_400
                  example_runtime64 no_market_world NodeCompat example_request example_env
                  _ [CallFetch example_url] "No market found"
                  Hauth Hparse Hvalid eq_refl)).
Defined.

Lemma unbuildable_client_leaves_handleTrade_witness :
  fetch_of Browser example_runtime64 bad_key_world example_request example_env
  = ([CallFetch example_url; CallWallet (Some "0x01")],
     Ok {| status := 500; resp_body := BError "invalid private key" |}) /\
  fetch_of Browser example_runtime64 null_key_world example_request example_env
  = ([CallFetch example_url; CallWallet (Some "0x01")],
     Throw (Exn "Cannot read properties of null (reading 'message')")).
Proof.
  destruct example_request_reaches_submission as (Hauth & Hparse & Hvalid).
  split.
  - exact (proj2 (proj1 (unbuildable_client_leaves_handleTrade
                           example_runtime64 bad_key_world Browser example_request
                           example_env _ [CallFetch example_url] (VStr "A") VUndef
                           (Exn "invalid private key")
                           Hauth Hparse Hvalid eq_refl eq_refl eq_refl)
                        eq_refl)).
  - exact (proj2 (proj1 (unbuildable_client_leaves_handleTrade
                           example_runtime64 null_key_world Browser example_request
                           example_env _ [CallFetch example_url] (VStr "A") VUndef
                           ThrownNull
                           Hauth Hparse Hvalid eq_refl eq_refl eq_refl)
                        eq_refl)).
Defined.

(** ** The resolver *)

Section ResolverFailures.

Context {num : Type} {N : JsNumber num}.
Variable rt : runtime num.
Variable w : world num.

(** X9. The failures of the resolver. It reports: no identifier
    (without any call); a status that is not a success, with that status
    in the message; a body that is not a non-empty list; a first record
    that is [null]. What the lookup or the reading of its body throws is
    caught, and its [message] read: the failure is reported with the
    message when an Error was thrown, and with [undefined] in its place
    when the value has no [message]; when [null] or [undefined] was thrown,
    the read is a TypeError in the [catch], and the resolver throws it. *)
Theorem resolver_failures (conditionId marketId side_ : jsval num) :
  (truthy conditionId = false -> truthy marketId = false ->
   resolveTokenId rt w conditionId marketId side_
   = ([], Ok (Unresolved "No conditionId/marketId to resolve tokenId"))) /\
  (forall url,
      lookup_url rt conditionId marketId = Some url ->
      let failing (err : string) :=
        resolveTokenId rt w conditionId marketId side_ = ([CallFetch url], Ok (Unresolved err)) in
      let throwing (y : exn) :=
        resolveTokenId rt w conditionId marketId side_ = ([CallFetch url], Throw y) in
      let caught (x : thrown_value) :=
        match x with
        | Error err => failing ("resolveTokenId error: " ++ message err)%string
        | ThrownOther => failing "resolveTokenId error: undefined"
        | ThrownNull =>
            throwing (Exn "Cannot read properties of null (reading 'message')")
        | ThrownUndefined =>
            throwing (Exn "Cannot read properties of undefined (reading 'message')")
        end in
      (forall x, gamma_fetch w url = Throw x -> caught x) /\
      (forall r, gamma_fetch w url = Ok r -> r_ok r = false ->
                 failing ("Gamma API " ++ decimal (r_status r))%string) /\
      (forall r x, gamma_fetch w url = Ok r -> r_ok r = true -> r_json r = Throw x ->
                   caught x) /\
      (forall r arr, gamma_fetch w url = Ok r -> r_ok r = true -> r_json r = Ok arr ->
                     (forall m l, arr <> VArr (m :: l)) ->
                     failing "No market found") /\
      (forall r l, gamma_fetch w url = Ok r -> r_ok r = true ->
                   r_json r = Ok (VArr (VNull :: l)) ->
                   failing "resolveTokenId error: Cannot read properties of null (reading 'outcomes')")).
Proof.
  split.
  - intros Hc Hm. unfold resolveTokenId, lookup_url. rewrite Hc, Hm. reflexivity.
  - intros url Hurl failing throwing caught. subst caught failing throwing.
    unfold resolveTokenId. rewrite Hurl. cbn.
    split; [|split; [|split; [|split]]].
    + intros x ->. destruct x; reflexivity.
    + intros r -> Hok. cbn. rewrite Hok. reflexivity.
    + intros r x -> Hok Hjson. cbn. rewrite Hok. cbn. rewrite Hjson.
      destruct x; reflexivity.
    + intros r arr -> Hok Hjson Hnot. cbn. rewrite Hok. cbn. rewrite Hjson. cbn.
      destruct arr as [| | | | |[|m l]|]; try reflexivity. now elim (Hnot m l).
    + intros r l -> Hok Hjson. cbn. rewrite Hok. cbn. rewrite Hjson. reflexivity.
Qed.

(** X10. The lookup is by condition identifier whenever one is given, the
    market identifier being ignored then, and by slug otherwise; the value
    goes through [encodeURIComponent]. *)
Theorem resolver_looks_up_by_condition_first (conditionId marketId side_ : jsval num) :
  (truthy conditionId = true ->
   fst (resolveTokenId rt w conditionId marketId side_)
   = [CallFetch ("https://gamma-api.polymarket.com/markets?limit=50&active=true&condition_ids="
                 ++ encodeURIComponent rt (ToString rt conditionId))]) /\
  (truthy conditionId = false -> truthy marketId = true ->
   fst (resolveTokenId rt w conditionId marketId side_)
   = [CallFetch ("https://gamma-api.polymarket.com/markets?limit=50&active=true&slug="
                 ++ encodeURIComponent rt (ToString rt marketId))]).
Proof.
  assert (H : forall url, lookup_url rt conditionId marketId = Some url ->
                          fst (resolveTokenId rt w conditionId marketId side_)
                          = [CallFetch url]).
  { intros url Hurl.
    destruct (resolveTokenId_runs rt w conditionId marketId side_)
      as [(Hnone & _)|(url' & Hurl' & [(out & H)|(x & _ & _ & y & _ & H)])];
      [congruence| |]; cbv zeta in H; rewrite H; cbn; congruence. }
  split.
  - intro Hc. apply H. unfold lookup_url. now rewrite Hc.
  - intros Hc Hm. apply H. unfold lookup_url. now rewrite Hc, Hm.
Qed.

(** What a resolved answer is made of. *)
Lemma resolved_inversion
      (conditionId marketId side_ : jsval num) (log : list (event num))
      (tokenId priceFromBook : jsval num) :
  resolveTokenId rt w conditionId marketId side_
  = (log, Ok (Resolved tokenId priceFromBook)) ->
  truthy tokenId = true /\
  exists best_ask use, priceFromBook = book_price rt best_ask use.
Proof.
  unfold resolveTokenId.
  destruct (lookup_url rt conditionId marketId) as [url|]; [|discriminate]. cbn.
  destruct (gamma_fetch w url) as [r|x]; [|destruct x; discriminate]. cbn.
  destruct (r_ok r); [|discriminate]. cbn.
  destruct (r_json r) as [arr|x]; [|destruct x; discriminate]. cbn.
  destruct arr as [| | | | |[|m l]|]; try discriminate. cbn.
  unfold select_token.
  destruct (member m "outcomes") as [outs|x]; [|destruct x; discriminate].
  destruct (outcome_index rt outs side_) as [idx|x]; [|destruct x; discriminate].
  destruct (truthy (token_at (prop m "tokens") (use_slot idx side_))) eqn:Ht;
    cbn; [|discriminate].
  intro H. injection H as _ <- <-. split; [exact Ht|]. eexists. eexists. reflexivity.
Qed.

(** The advisory price is absent or the clamp of a finite number. *)
Lemma book_price_cases (best_ask : jsval num) (use : nat) :
  book_price rt best_ask use = VUndef \/
  exists v, num_isFinite v = true /\ book_price rt best_ask use = VNum (clamp01 rt (VNum v)).
Proof.
  unfold book_price.
  destruct (truthy best_ask && isArray best_ask && negb (nullish (index best_ask use)));
    [|now left].
  destruct (num_isFinite (ToNumber rt (index best_ask use))) eqn:Hfin; [|now left].
  right. eexists. split; [exact Hfin|reflexivity].
Qed.

End ResolverFailures.

(** X11. What the resolver returns on success: a tokenId that is truthy,
    and a book price that is absent or a number within [0, 1], in binary64
    and in exact arithmetic. *)
Theorem resolved_token_and_book_price :
  (forall (rt : runtime float) (w : world float) (conditionId marketId side_ : jsval float)
          (log : list (event float)) (tokenId priceFromBook : jsval float),
      resolveTokenId rt w conditionId marketId side_
      = (log, Ok (Resolved tokenId priceFromBook)) ->
      truthy tokenId = true /\
      (priceFromBook = VUndef \/
       exists v, priceFromBook = VNum v /\
                 (0 <=? v)%float = true /\ (v <=? 1)%float = true)) /\
  (forall (rt : runtime xnum) (w : world xnum) (conditionId marketId side_ : jsval xnum)
          (log : list (event xnum)) (tokenId priceFromBook : jsval xnum),
      resolveTokenId rt w conditionId marketId side_
      = (log, Ok (Resolved tokenId priceFromBook)) ->
      truthy tokenId = true /\
      (priceFromBook = VUndef \/
       exists q, priceFromBook = VNum (XFin q) /\ (0 <= q /\ q <= 1)%Qc)).
Proof.
  split.
  - intros rt w c m s log tokenId pfb Hres.
    destruct (resolved_inversion rt w c m s log tokenId pfb Hres) as (Ht & ba & use & ->).
    split; [exact Ht|].
    destruct (book_price_cases rt ba use) as [->|(v & Hfin & ->)]; [now left|].
    right. eexists. split; [reflexivity|].
    destruct (Binary64Facts.clamp01_binary64 rt v Hfin) as (H0 & H1 & _). now split.
  - intros rt w c m s log tokenId pfb Hres.
    destruct (resolved_inversion rt w c m s log tokenId pfb Hres) as (Ht & ba & use & ->).
    split; [exact Ht|].
    destruct (book_price_cases rt ba use) as [->|(v & Hfin & ->)]; [now left|].
    right. destruct v as [| |q]; try discriminate.
    destruct (clamp01_exact rt q) as (q' & -> & Hb & _). exists q'. now split.
Qed.

Lemma resolver_failures_witness :
  resolveTokenId example_runtime64 unavailable_world VUndef (VStr "btc-up") (VStr "YES")
  = ([CallFetch example_url], Ok (Unresolved "Gamma API 503")) /\
  resolveTokenId example_runtime64 rejecting_world VUndef (VStr "btc-up") (VStr "YES")
  = ([CallFetch example_url],
     Throw (Exn "Cannot read properties of undefined (reading 'message')")).
Proof.
  split.
  - destruct (proj2 (resolver_failures example_runtime64 unavailable_world
                       VUndef (VStr "btc-up") (VStr "YES")) example_url eq_refl)
      as (_ & Hstatus & _).
    exact (Hstatus _ eq_refl eq_refl).
  - destruct (proj2 (resolver_failures example_runtime64 rejecting_world
                       VUndef (VStr "btc-up") (VStr "YES")) example_url eq_refl)
      as (Hthrown & _).
    exact (Hthrown ThrownUndefined eq_refl).
Defined.

Lemma resolver_looks_up_by_condition_first_witness :
  fst (resolveTokenId example_runtime64 (example_world (Ok tt) (Ok example_ack))
                      (VStr "0xc0ffee") (VStr "btc-up") (VStr "YES"))
  = [CallFetch "https://gamma-api.polymarket.com/markets?limit=50&active=true&condition_ids=0xc0ffee"].
Proof.
  exact (proj1 (resolver_looks_up_by_condition_first
                  example_runtime64 (example_world (Ok tt) (Ok example_ack))
                  (VStr "0xc0ffee") (VStr "btc-up") (VStr "YES")) eq_refl).
Defined.

Lemma resolved_token_and_book_price_witness :
  exists v,
    snd (resolveTokenId example_runtime64 (world_of quoted_market)
                        VUndef (VStr "btc-up") (VStr "NO"))
    = Ok (Resolved (VStr "B") (VNum v)) /\
    (0 <=? v)%float = true /\ (v <=? 1)%float = true.
Proof.
  destruct (proj1 resolved_token_and_book_price
                  example_runtime64 (world_of quoted_market) VUndef (VStr "btc-up") (VStr "NO")
                  [CallFetch example_url] (VStr "B") (VNum 1%float) eq_refl)
    as (_ & [Hundef|(v & Hv & Hbounds)]); [discriminate|].
  exists v. split; [|exact Hbounds]. rewrite <- Hv. reflexivity.
Defined.

(** ** The helpers *)

(** X12. [clamp01] is idempotent on every number, finite or not, in
    binary64 and in exact arithmetic. *)
Theorem clamp01_idempotent :
  (forall (rt : runtime float) (x : float),
      clamp01 rt (VNum (clamp01 rt (VNum x))) = clamp01 rt (VNum x)) /\
  (forall (rt : runtime xnum) (x : xnum),
      clamp01 rt (VNum (clamp01 rt (VNum x))) = clamp01 rt (VNum x)).
Proof.
  split.
  - intros rt x. destruct (is_finite x) eqn:Hfin.
    + assert (E : clamp01 rt (VNum x) = Binary64.max 0 (Binary64.min 1 x)).
      { unfold clamp01. cbn [ToNumber].
        change (num_isFinite x) with (is_finite x). now rewrite Hfin. }
      destruct (Binary64Facts.clamp_cases x (Binary64Facts.finite_not_nan x Hfin))
        as [[_ H]|[(_ & _ & H)|(_ & _ & H)]]; cbv zeta in H; rewrite <- E in H.
      * rewrite H. reflexivity.
      * rewrite H. exact H.
      * rewrite H. reflexivity.
    + assert (E : clamp01 rt (VNum x) = nan).
      { unfold clamp01. cbn [ToNumber].
        change (num_isFinite x) with (is_finite x). now rewrite Hfin. }
      rewrite E. reflexivity.
  - intros rt [| |q]; try reflexivity.
    destruct (clamp01_exact rt q) as (q' & -> & Hb & _).
    destruct (clamp01_exact rt q') as (q'' & -> & _ & Hin & _).
    now rewrite (Hin Hb).
Qed.

(** *** The hex rendering of the digest *)

Lemma hex_byte (b : Z) :
  is_byte b ->
  padStart2 (toString16 b)
  = String (hex_digit (b / 16)) (String (hex_digit (b mod 16)) EmptyString).
Proof.
  intros [Hlo Hhi]. unfold toString16.
  destruct (Z.ltb_spec b 16) as [Hlt|Hge]; cbn [padStart2].
  - rewrite Z.div_small, Z.mod_small by lia. reflexivity.
  - reflexivity.
Qed.

Lemma hex_digit_inj (d d' : Z) :
  0 <= d < 16 -> 0 <= d' < 16 -> hex_digit d = hex_digit d' -> d = d'.
Proof.
  intros Hd Hd' H.
  assert (Hn : forall n n' : nat,
             (n < 16)%nat -> (n' < 16)%nat ->
             hex_digit (Z.of_nat n) = hex_digit (Z.of_nat n') -> n = n').
  { intros n n' Hn Hn'.
    do 16 (destruct n as [|n]; [do 16 (destruct n' as [|n']; [vm_compute; congruence|]); lia|]).
    lia. }
  rewrite <- (Z2Nat.id d), <- (Z2Nat.id d') in * by lia.
  f_equal. apply Hn; [lia|lia|exact H].
Qed.

Lemma length_append (a b : string) :
  String.length (a ++ b) = (String.length a + String.length b)%nat.
Proof.
  induction a as [|c a IH]; cbn; [reflexivity|now rewrite IH].
Qed.

Lemma hex_length_any (bs : list Z) :
  String.length (hex_of_bytes bs) = (2 * List.length bs)%nat.
Proof.
  induction bs as [|b bs IH]; [reflexivity|].
  cbn [hex_of_bytes fold_right List.length].
  change (fold_right (fun b acc => (padStart2 (toString16 b) ++ acc)%string) EmptyString bs)
    with (hex_of_bytes bs).
  rewrite length_append, IH.
  assert (H2 : String.length (padStart2 (toString16 b)) = 2%nat).
  { unfold toString16. destruct (b <? 16); reflexivity. }
  rewrite H2. lia.
Qed.

(** X13. The rendering [b.toString(16).padStart(2, "0")] joined over the
    bytes gives two characters a byte, and loses nothing: two lists of bytes
    with the same rendering are the same list. *)
Theorem hex_rendering_is_faithful (bs bs' : list Z) :
  String.length (hex_of_bytes bs) = (2 * List.length bs)%nat /\
  (Forall is_byte bs -> Forall is_byte bs' ->
   hex_of_bytes bs = hex_of_bytes bs' -> bs = bs').
Proof.
  split; [apply hex_length_any|].
  intros Hbs. revert bs'. induction Hbs as [|b bs Hb Hbs IH]; intros bs' Hbs' Heq.
  - destruct Hbs' as [|b' bs' Hb' Hbs']; [reflexivity|].
    cbn in Heq. rewrite (hex_byte b' Hb') in Heq. discriminate.
  - destruct Hbs' as [|b' bs' Hb' Hbs'].
    + cbn in Heq. rewrite (hex_byte b Hb) in Heq. discriminate.
    + cbn [hex_of_bytes fold_right] in Heq.
      rewrite (hex_byte b Hb), (hex_byte b' Hb') in Heq.
      cbn [append] in Heq. injection Heq as Hhi Hlo Hrest.
      unfold is_byte in Hb, Hb'.
      apply hex_digit_inj in Hhi;
        [|split; [apply Z.div_pos; lia|apply Z.div_lt_upper_bound; lia]
         |split; [apply Z.div_pos; lia|apply Z.div_lt_upper_bound; lia]].
      apply hex_digit_inj in Hlo; [|apply Z.mod_pos_bound; lia|apply Z.mod_pos_bound; lia].
      f_equal.
      * rewrite (Z.div_mod b 16), (Z.div_mod b' 16) by lia. now rewrite Hhi, Hlo.
      * apply IH; assumption.
Qed.

Lemma hex_rendering_is_faithful_witness :
  (Forall is_byte [0; 10; 255] /\ hex_of_bytes [0; 10; 255] = "000aff"%string) /\
  String.length (hex_of_bytes [0; 10; 255]) = 6%nat /\
  [0; 10; 255] = [0; 10; 255] /\
  hex_of_bytes [0; 10; 255] <> hex_of_bytes [0; 10; 254].
Proof.
  assert (Hbytes : Forall is_byte [0; 10; 255])
    by (repeat constructor; unfold is_byte; lia).
  destruct (hex_rendering_is_faithful [0; 10; 255] [0; 10; 255]) as [Hlen Hsame].
  destruct (hex_rendering_is_faithful [0; 10; 255] [0; 10; 254]) as [_ Hinj].
  split; [split; [exact Hbytes|reflexivity]|].
  split; [exact Hlen|].
  split; [exact (Hsame Hbytes Hbytes eq_refl)|].
  intro Heq.
  assert (H : [0; 10; 255] = [0; 10; 254]).
  { apply Hinj; [exact Hbytes| |exact Heq]. repeat constructor; unfold is_byte; lia. }
  discriminate H.
Defined.

(** *** Lengths *)

Lemma compress_length (h block : list Z) :
  List.length h = 8%nat -> List.length (Sha256.compress h block) = 8%nat.
Proof.
  intro Hh. unfold Sha256.compress. rewrite length_map, length_combine, Hh. reflexivity.
Qed.

Lemma digest_length (msg : list Z) : List.length (Sha256.digest msg) = 32%nat.
Proof.
  unfold Sha256.digest.
  assert (Hfold : forall blocks h, List.length h = 8%nat ->
                     List.length (fold_left Sha256.compress blocks h) = 8%nat).
  { induction blocks as [|blk blocks IH]; intros h Hh; cbn; [exact Hh|].
    apply IH. now apply compress_length. }
  assert (Hflat : forall l : list Z,
             List.length (flat_map (Sha256.be_bytes 4) l) = (4 * List.length l)%nat).
  { induction l as [|x l IH]; [reflexivity|].
    cbn [flat_map]. rewrite length_app, IH. cbn. lia. }
  rewrite Hflat, Hfold; reflexivity.
Qed.

Lemma toLowerCase_length (s : string) : String.length (toLowerCase s) = String.length s.
Proof.
  induction s as [|c s IH]; cbn; [reflexivity|now rewrite IH].
Qed.

(** X14. The computed signature has 64 characters, and a presented one of
    any other length is rejected by the length test alone: no character of
    either is read. *)
Theorem signature_of_wrong_length_is_rejected_unread (S B sig : string) :
  String.length (hmac_hex S B) = 64%nat /\
  (String.length sig <> 64%nat ->
   timingSafeEqual_run (hmac_hex S B) (toLowerCase sig) = (false, []) /\
   verifyHmac (Some S) B sig = false).
Proof.
  assert (Hlen : String.length (hmac_hex S B) = 64%nat).
  { unfold hmac_hex, Sha256.hmac. now rewrite hex_length_any, digest_length. }
  split; [exact Hlen|]. intro Hsig.
  assert (Hrun : timingSafeEqual_run (hmac_hex S B) (toLowerCase sig) = (false, [])).
  { unfold timingSafeEqual_run. rewrite Hlen, toLowerCase_length.
    destruct (Nat.eqb_spec 64 (String.length sig)) as [Heq|_]; [|reflexivity].
    now elim Hsig. }
  split; [exact Hrun|].
  destruct S as [|c S]; [reflexivity|].
  unfold verifyHmac, timingSafeEqual. now rewrite Hrun.
Qed.

Lemma signature_of_wrong_length_is_rejected_unread_witness :
  timingSafeEqual_run (hmac_hex "s3cret" "null") (toLowerCase "F7BC83") = (false, []) /\
  verifyHmac (Some "s3cret") "null" "F7BC83" = false.
Proof.
  apply (proj2 (signature_of_wrong_length_is_rejected_unread "s3cret" "null" "F7BC83")).
  discriminate.
Defined.

(** *** The accumulator *)

Lemma charCode_byte (c : ascii) : is_byte (charCode c).
Proof.
  unfold is_byte, charCode. pose proof (nat_ascii_bounded c). lia.
Qed.

Lemma charCodeAt_byte (s : string) (i : nat) : is_byte (charCodeAt s i).
Proof.
  unfold charCodeAt. destruct (String.get i s); [apply charCode_byte|unfold is_byte; lia].
Qed.

Lemma byte_below (x : Z) : 0 <= x -> (x < 256 <-> Z.log2 x < 8).
Proof.
  intro Hx. destruct (Z.eq_dec x 0) as [->|Hne]; [cbn; lia|].
  apply (Z.log2_lt_pow2 x 8). lia.
Qed.

Lemma lor_byte (a b : Z) : is_byte a -> is_byte b -> is_byte (Z.lor a b).
Proof.
  unfold is_byte. intros [Ha Ha'] [Hb Hb'].
  assert (H0 : 0 <= Z.lor a b) by (apply Z.lor_nonneg; lia).
  split; [exact H0|]. apply byte_below; [exact H0|].
  rewrite Z.log2_lor by lia.
  apply byte_below in Ha'; [|exact Ha]. apply byte_below in Hb'; [|exact Hb]. lia.
Qed.

Lemma lxor_byte (a b : Z) : is_byte a -> is_byte b -> is_byte (Z.lxor a b).
Proof.
  unfold is_byte. intros [Ha Ha'] [Hb Hb'].
  assert (H0 : 0 <= Z.lxor a b) by (apply Z.lxor_nonneg; lia).
  split; [exact H0|]. apply byte_below; [exact H0|].
  pose proof (Z.log2_lxor a b Ha Hb).
  apply byte_below in Ha'; [|exact Ha]. apply byte_below in Hb'; [|exact Hb]. lia.
Qed.

Lemma tse_loop_byte (a b : string) (n i : nat) (x : Z) (tr : list nat) :
  is_byte x -> is_byte (fst (tse_loop a b n i (x, tr))).
Proof.
  revert i x tr. induction n as [|n IH]; intros i x tr Hx; cbn; [exact Hx|].
  apply IH. apply lor_byte; [exact Hx|].
  apply lxor_byte; apply charCodeAt_byte.
Qed.

(** X15. The accumulator of [timingSafeEqual] never leaves 0..255: the
    32-bit coercions of the bitwise operators of JavaScript never alter it. *)
Theorem accumulator_stays_a_byte (a b : string) (n i : nat) :
  is_byte (fst (tse_loop a b n i (0, []))).
Proof.
  apply tse_loop_byte. unfold is_byte. lia.
Qed.

(** ** The router, the validator and the two files *)

Section Router.

Context {num : Type} {N : JsNumber num}.
Variable rt : runtime num.
Variable w : world num.

(** X16. [/health] is answered 200 with the name and the clock, whatever
    the method and without looking at any signature; every other path, and
    [/trade] under a method other than POST, is answered 404; neither calls
    anything. *)
Theorem router_health_and_not_found (b : build) (r : request) (e : env) :
  (pathname r = "/health" ->
   fetch_of b rt w r e
   = ([], Ok {| status := 200; resp_body := BHealth "poly-trader" (Date_now w) |})) /\
  (pathname r <> "/health" ->
   pathname r <> "/trade" \/ method r <> "POST" ->
   fetch_of b rt w r e = ([], Ok {| status := 404; resp_body := BText "Not found" |})).
Proof.
  split.
  - intro Hp. destruct b; cbn [fetch_of]; unfold Worker.fetch, Part000.fetch;
      rewrite Hp; reflexivity.
  - intros Hh Hnot.
    assert (H1 : String.eqb (pathname r) "/health" = false)
      by (now apply String.eqb_neq).
    assert (H2 : String.eqb (pathname r) "/trade" && String.eqb (method r) "POST" = false).
    { destruct Hnot as [H|H]; apply String.eqb_neq in H; rewrite H;
        [reflexivity|apply andb_false_r]. }
    destruct b; cbn [fetch_of]; unfold Worker.fetch, Part000.fetch;
      rewrite H1, H2; reflexivity.
Qed.

(** X17. The advisory price is only reported: the calls of the submission
    steps, the order among them, and the answer but for
    [meta.priceFromBook] are the same whatever the book price is. *)
Theorem book_price_is_only_reported
        (b : build) (e : env)
        (tokenId side_ ask amountUsd slippage : jsval num) (book book' : jsval num) :
  let run := submit_of b rt w e tokenId book side_ ask amountUsd slippage in
  let run' := submit_of b rt w e tokenId book' side_ ask amountUsd slippage in
  fst run = fst run' /\ without_book_price (snd run) = without_book_price (snd run').
Proof.
  intros run run'. subst run run'.
  destruct b; cbn [submit_of]; unfold Worker.submit, Part000.submit;
    (destruct (new_Wallet w (PRIVATE_KEY e)) as [signer|x]; [cbn|split; reflexivity]);
    (destruct (new_ClobClient w _ _ signer) as [[]|x]; [cbn|split; reflexivity]);
    (destruct (createOrDeriveApiKey w _) as [[]|x]; [cbn|split; reflexivity]);
    match goal with |- context [place w ?o] => destruct (place w o) as [[v|x]|x] end;
    try (split; reflexivity); destruct x; split; reflexivity.
Qed.

(** X18. On a payload that is not [null] the validator does what it says,
    in both files: a falsy or missing [side], [amountUsd] or [ask] (a
    numeric 0 among them) is a 400 "Missing side/amountUsd/ask"; with the
    three truthy, a [side] that is neither string is a 400 "side must be YES
    or NO"; nothing is called. *)
Theorem validator_on_a_payload
        (b : build) (r : request) (e : env) (payload : jsval num) :
  authenticated e r ->
  JSON_parse rt (text r) = Some payload ->
  nullish payload = false ->
  truthy (VNum (num := num) (num_of_Z 0)) = false /\
  (truthy (prop payload "side") = false \/
   truthy (prop payload "amountUsd") = false \/
   truthy (prop payload "ask") = false ->
   handleTrade_of b rt w r e
   = ([], Ok {| status := 400; resp_body := BError "Missing side/amountUsd/ask" |})) /\
  (truthy (prop payload "side") = true ->
   truthy (prop payload "amountUsd") = true ->
   truthy (prop payload "ask") = true ->
   prop payload "side" <> VStr "YES" -> prop payload "side" <> VStr "NO" ->
   handleTrade_of b rt w r e
   = ([], Ok {| status := 400; resp_body := BError "side must be YES or NO" |})).
Proof.
  intros Hauth Hparse Hnull. split; [exact num_zero_falsy|].
  exact (validation_rejects rt w b r e payload Hauth Hparse Hnull).
Qed.

(** X19. The two files answer every request alike, with the same calls,
    as long as [place] never resolves to a value that cannot be
    serialized. *)
Theorem builds_agree_on_serializable_acknowledgements (r : request) (e : env) :
  (forall o x, place w o <> Ok (AckUnserializable x)) ->
  handleTrade_of NodeCompat rt w r e = handleTrade_of Browser rt w r e /\
  fetch_of NodeCompat rt w r e = fetch_of Browser rt w r e.
Proof.
  intro Hser. exact (handleTrade_same_unless_unserializable rt w r e Hser).
Qed.

End Router.

Lemma router_health_and_not_found_witness :
  fetch_of NodeCompat example_runtime64 (example_world (Ok tt) (Ok example_ack))
           {| method := "GET"; pathname := "/trade";
              X_HUD_Signature := None; text := EmptyString |} example_env
  = ([], Ok {| status := 404; resp_body := BText "Not found" |}).
Proof.
  apply (proj2 (router_health_and_not_found
                  example_runtime64 (example_world (Ok tt) (Ok example_ack)) NodeCompat
                  {| method := "GET"; pathname := "/trade";
                     X_HUD_Signature := None; text := EmptyString |} example_env)).
  - discriminate.
  - right. discriminate.
Defined.

Lemma validator_on_a_payload_witness :
  handleTrade_of Browser zero_amount_runtime (example_world (Ok tt) (Ok example_ack))
                 (signed_request "s3cret" zero_amount_text) example_env
  = ([], Ok {| status := 400; resp_body := BError "Missing side/amountUsd/ask" |}).
Proof.
  assert (Hauth : authenticated example_env (signed_request "s3cret" zero_amount_text)).
  { apply signed_request_authenticated; [discriminate|reflexivity]. }
  destruct (validator_on_a_payload
              zero_amount_runtime (example_world (Ok tt) (Ok example_ack)) Browser
              (signed_request "s3cret" zero_amount_text) example_env
              (trade_payload 0.5%float 0%float []) Hauth eq_refl eq_refl)
    as (_ & Hmissing & _).
  apply Hmissing. right. left. reflexivity.
Defined.

Lemma builds_agree_on_serializable_acknowledgements_witness :
  handleTrade_of NodeCompat example_runtime64 (example_world (Ok tt) (Ok example_ack))
                 example_request example_env
  = handleTrade_of Browser example_runtime64 (example_world (Ok tt) (Ok example_ack))
                   example_request example_env.
Proof.
  refine (proj1 (builds_agree_on_serializable_acknowledgements
                   example_runtime64 (example_world (Ok tt) (Ok example_ack))
                   example_request example_env _)).
  intros o x. discriminate.
Defined.

(** ** Exceptions and prices *)

Section Escapes.

Context {num : Type} {N : JsNumber num}.
Variable rt : runtime num.
Variable w : world num.


End Escapes.



(** X21. The price of an order is never outside [0, 1]: it is NaN or
    within the bounds, whatever [ask] and [slippage] are, in binary64 and in
    exact arithmetic. Nothing keeps it away from 0: a negative ask gives
    the price 0, and then an infinite size. *)
Theorem order_price_is_nan_or_within_bounds :
  (forall (rt : runtime float) (ask slippage : jsval float),
      let p := order_price rt ask slippage in
      is_nan p = true \/ ((0 <=? p)%float = true /\ (p <=? 1)%float = true)) /\
  (forall (rt : runtime xnum) (ask slippage : jsval xnum),
      let p := order_price rt ask slippage in
      p = XNaN \/ exists q, p = XFin q /\ (0 <= q /\ q <= 1)%Qc) /\
  (forall rt : runtime float,
      order_price rt (VNum (-0.5)%float) (VNum 0.02%float) = 0%float /\
      order_shares rt (VNum 100%float) 0%float = infinity).
Proof.
  split; [|split].
  - intros rt ask slippage p. subst p. unfold order_price.
    set (x := num_mul _ _).
    destruct (is_finite x) eqn:Hfin.
    + right. destruct (Binary64Facts.clamp01_binary64 rt x Hfin) as (H0 & H1 & _).
      now split.
    + left. assert (Hfin' : num_isFinite x = false) by exact Hfin.
      rewrite (clamp01_not_finite rt x Hfin'). reflexivity.
  - intros rt ask slippage p. subst p. unfold order_price.
    set (x := num_mul _ _).
    destruct x as [| |q] eqn:Hx; [left; reflexivity|left; reflexivity|].
    right. destruct (clamp01_exact rt q) as (q' & -> & Hb & _). exists q'. now split.
  - intro rt. split; reflexivity.
Qed.
